(** * extract_privatekey.py: extraction of an Ed25519 private key

    A shallow embedding of [extract_privatekey.py] and of the parts of the
    Python runtime it calls ([str.strip], [base64.b64decode] with its
    default lenient mode, [bytes.hex], [print], [sys.exit] and the
    [try]/[except] construct), followed by the properties of the program.

    Python [str] values are lists of code points, [bytes] values are lists
    of numbers below 256, both carried by [N].  The two output streams are
    explicit state; exceptions are explicit results. *)

From Stdlib Require Import NArith ZArith List String Ascii Bool Lia.
From Stdlib Require Import DecimalString.
Import ListNotations.

Local Open Scope N_scope.

(** ** Python strings and bytes *)

Definition pystr := list N.
Definition bytes := list N.

Definition is_bytes (b : bytes) : Prop := Forall (fun x => x < 256) b.

(** A string literal of the source, as code points. *)
Definition lit (s : string) : pystr := map N_of_ascii (list_ascii_of_string s).

(** [str(n)] for a non-negative integer. *)
Definition str_of_nat (n : nat) : pystr :=
  lit (NilZero.string_of_uint (Nat.to_uint n)).

(** [len(x)] *)
Definition len {A} (l : list A) : nat := List.length l.

(** [str.isspace] on one character: the code points Python treats as
    whitespace. *)
Definition isspace (c : N) : bool :=
  ((9 <=? c) && (c <=? 13)) || ((28 <=? c) && (c <=? 32))
  || (c =? 133) || (c =? 160) || (c =? 5760)
  || ((8192 <=? c) && (c <=? 8202))
  || (c =? 8232) || (c =? 8233) || (c =? 8239) || (c =? 8287) || (c =? 12288).

Fixpoint lstrip (s : pystr) : pystr :=
  match s with
  | [] => []
  | c :: r => if isspace c then lstrip r else s
  end.

Definition rstrip (s : pystr) : pystr := rev (lstrip (rev s)).

(** [s.strip()] *)
Definition strip (s : pystr) : pystr := rstrip (lstrip s).

(** [x[lo:hi]] for [0 <= lo <= hi]; out-of-range bounds are clipped. *)
Definition slice {A} (lo hi : nat) (x : list A) : list A :=
  firstn (hi - lo) (skipn lo x).

(** [bytes.hex()]: two lowercase digits per byte, no separator. *)
Definition hexdigit (d : N) : N := if d <? 10 then 48 + d else 87 + d.

Definition hex (b : bytes) : pystr :=
  flat_map (fun x => [hexdigit (N.shiftr x 4); hexdigit (N.land x 15)]) b.

(** ** Base64 as the Python runtime implements it *)

Definition BASE64_PAD : N := 61.

(** [table_a2b_base64]: the value of an alphabet character, 255 (the
    table's -1 stored in an unsigned char) for every other character. *)
Definition table_a2b_base64 (c : N) : N :=
  if (65 <=? c) && (c <=? 90) then c - 65
  else if (97 <=? c) && (c <=? 122) then c - 71
  else if (48 <=? c) && (c <=? 57) then c + 4
  else if c =? 43 then 62
  else if c =? 47 then 63
  else 255.

(** How the decoding loop of [binascii.a2b_base64] is left: by running out
    of input with some [quad_pos], or through [goto done] at a complete
    pad sequence. *)
Inductive a2b_exit : Type :=
| LoopEnd (quad_pos : N)
| PadDone.

Definition emit (b : N) (r : bytes * a2b_exit) : bytes * a2b_exit :=
  (N.land b 255 :: fst r, snd r).

(** The loop of [binascii.a2b_base64] (CPython 3.11) with [strict_mode]
    off.  A character outside the alphabet is skipped; a [=] counts as
    padding only from [quad_pos] 2 on, and ends the decoding once the group
    is complete.  The result is the bytes written to the output buffer, in
    order, and the way the loop was left. *)
Fixpoint a2b_loop (ascii_data : list N) (quad_pos leftchar pads : N)
  : bytes * a2b_exit :=
  match ascii_data with
  | [] => ([], LoopEnd quad_pos)
  | this_ch :: rest =>
      if this_ch =? BASE64_PAD then
        if 2 <=? quad_pos then
          let pads := pads + 1 in
          if 4 <=? quad_pos + pads then ([], PadDone)
          else a2b_loop rest quad_pos leftchar pads
        else a2b_loop rest quad_pos leftchar pads
      else
        let this_ch := table_a2b_base64 this_ch in
        if 64 <=? this_ch then a2b_loop rest quad_pos leftchar pads
        else
          match quad_pos with
          | 0 => a2b_loop rest 1 this_ch 0
          | 1 => emit (N.lor (N.shiftl leftchar 2) (N.shiftr this_ch 4))
                      (a2b_loop rest 2 (N.land this_ch 15) 0)
          | 2 => emit (N.lor (N.shiftl leftchar 4) (N.shiftr this_ch 2))
                      (a2b_loop rest 3 (N.land this_ch 3) 0)
          | _ => emit (N.lor (N.shiftl leftchar 6) this_ch)
                      (a2b_loop rest 0 0 0)
          end
  end.

(** ** Exceptions and the output streams *)

Inductive exn : Type :=
| FileNotFoundError
| ValueError (msg : pystr)
| BinasciiError (msg : pystr)
| OtherException (msg : pystr)
| SystemExit (code : Z).

(** [isinstance(e, Exception)]: [SystemExit] derives from [BaseException]
    only. *)
Definition is_Exception (e : exn) : bool :=
  match e with
  | SystemExit _ => false
  | _ => true
  end.

(** [binascii.a2b_base64(data)]: decode, then check how the loop ended. *)
Definition a2b_base64 (data : bytes) : exn + bytes :=
  match a2b_loop data 0 0 0 with
  | (bin, PadDone) => inr bin
  | (bin, LoopEnd quad_pos) =>
      if quad_pos =? 0 then inr bin
      else if quad_pos =? 1 then
        inl (BinasciiError
               (lit "Invalid base64-encoded string: number of data characters ("
                ++ str_of_nat (len bin / 3 * 4 + 1)
                ++ lit ") cannot be 1 more than a multiple of 4"))
      else inl (BinasciiError (lit "Incorrect padding"))
  end.

(** [s.encode('ascii')] inside [base64._bytes_from_decode_data]. *)
Definition encode_ascii (s : pystr) : option bytes :=
  if forallb (fun c => c <? 128) s then Some s else None.

(** [base64.b64decode(s)] for a [str] argument, [validate] left off. *)
Definition b64decode (s : pystr) : exn + bytes :=
  match encode_ascii s with
  | None =>
      inl (ValueError (lit "string argument should contain only ASCII characters"))
  | Some b => a2b_base64 b
  end.

(** [table_b2a_base64]: the character of a 6-bit value. *)
Definition table_b2a_base64 (v : N) : N :=
  if v <? 26 then 65 + v
  else if v <? 52 then 71 + v
  else if v <? 62 then v - 4
  else if v =? 62 then 43
  else 47.

(** The four 6-bit values of a group of three bytes [x y z]. *)
Definition sextet0 (x : N) : N := N.shiftr x 2.
Definition sextet1 (x y : N) : N := N.lor (N.shiftl (N.land x 3) 4) (N.shiftr y 4).
Definition sextet2 (y z : N) : N := N.lor (N.shiftl (N.land y 15) 2) (N.shiftr z 6).
Definition sextet3 (z : N) : N := N.land z 63.

(** The base64 encoding of a byte sequence ([base64.b64encode], RFC 4648
    section 4): three bytes give four characters; a final group of one or
    two bytes is completed with zero bits and padded with [=]. *)
Fixpoint b64encode (b : bytes) : pystr :=
  match b with
  | [] => []
  | [x] =>
      [table_b2a_base64 (sextet0 x); table_b2a_base64 (sextet1 x 0);
       BASE64_PAD; BASE64_PAD]
  | [x; y] =>
      [table_b2a_base64 (sextet0 x); table_b2a_base64 (sextet1 x y);
       table_b2a_base64 (sextet2 y 0); BASE64_PAD]
  | x :: y :: z :: rest =>
      table_b2a_base64 (sextet0 x)
      :: table_b2a_base64 (sextet1 x y)
      :: table_b2a_base64 (sextet2 y z)
      :: table_b2a_base64 (sextet3 z)
      :: b64encode rest
  end.

(** Well-formed base64 text in the sense of RFC 4648: alphabet characters
    only, at most two [=] at the very end, a length that is a multiple of
    four. *)
Definition in_alphabet (c : N) : bool := table_a2b_base64 c <? 64.

Definition drop_pad (r : pystr) : pystr :=
  match r with
  | c :: r' => if c =? BASE64_PAD then r' else r
  | [] => []
  end.

Definition valid_base64 (s : pystr) : bool :=
  (Nat.eqb (Nat.modulo (len s) 4) 0)
  && forallb in_alphabet (drop_pad (drop_pad (rev s))).

(** ** The monad of Python statements *)

Record streams : Type := { stdout : pystr; stderr : pystr }.

Definition Py (A : Type) : Type := streams -> streams * (exn + A).

Definition ret {A} (a : A) : Py A := fun w => (w, inr a).

Definition bind {A B} (m : Py A) (k : A -> Py B) : Py B :=
  fun w =>
    match m w with
    | (w', inl e) => (w', inl e)
    | (w', inr a) => k a w'
    end.

Definition raise {A} (e : exn) : Py A := fun w => (w, inl e).

Definition lift {A} (r : exn + A) : Py A := fun w => (w, r).

Declare Scope py_scope.
Delimit Scope py_scope with py.
Notation "x <- m ;; k" := (bind m (fun x => k))
  (at level 61, m at next level, right associativity) : py_scope.
Notation "m ;; k" := (bind m (fun _ => k))
  (at level 61, right associativity) : py_scope.

(** [try: body  except ...:], the handler choosing the first clause that
    matches, [None] when no clause does. *)
Definition try_except {A} (body : Py A) (handler : exn -> option (Py A))
  : Py A :=
  fun w =>
    match body w with
    | (w', inl e) =>
        match handler e with
        | Some h => h w'
        | None => (w', inl e)
        end
    | r => r
    end.

(** [print(x)] and [print(x, file=sys.stderr)]. *)
Definition print (x : pystr) : Py unit :=
  fun w => ({| stdout := stdout w ++ x ++ [10]; stderr := stderr w |}, inr tt).

Definition print_stderr (x : pystr) : Py unit :=
  fun w => ({| stdout := stdout w; stderr := stderr w ++ x ++ [10] |}, inr tt).

Definition sys_exit {A} (code : Z) : Py A := raise (SystemExit code).

(** [str(e)] *)
Definition str_exn (e : exn) : pystr :=
  match e with
  | FileNotFoundError => lit "[Errno 2] No such file or directory"
  | ValueError msg => msg
  | BinasciiError msg => msg
  | OtherException msg => msg
  | SystemExit code => []
  end.

(** ** The environment: files and the argument vector *)

(** What [open(path, 'r')] followed by [f.read()] gives: the text of the
    file, [FileNotFoundError], or some other exception (permission
    denied, a directory, undecodable bytes) with its message. *)
Inductive read_result : Type :=
| ReadText (text : pystr)
| ReadNotFound
| ReadFails (msg : pystr).

Definition filesystem := pystr -> read_result.

Definition open_read (fs : filesystem) (path : pystr) : Py pystr :=
  match fs path with
  | ReadText text => ret text
  | ReadNotFound => raise FileNotFoundError
  | ReadFails msg => raise (OtherException msg)
  end.

(** [sys.argv]: the program name and the command-line arguments. *)
Record argv : Type := { argv0 : pystr; argv_args : list pystr }.

Definition len_argv (a : argv) : nat := S (len (argv_args a)).

Definition argv_get (a : argv) (i : nat) : Py pystr :=
  match i with
  | O => ret (argv0 a)
  | S j =>
      match nth_error (argv_args a) j with
      | Some x => ret x
      | None => raise (OtherException (lit "list index out of range"))
      end
  end.

(** ** The program *)

Local Open Scope py_scope.

Definition extract_private_key (fs : filesystem) (key_file_path : pystr)
  : Py unit :=
  try_except
    (key_data <- (text <- open_read fs key_file_path ;; ret (strip text)) ;;
     data <- lift (b64decode key_data) ;;
     (if (len data <? 33)%nat then
        print_stderr (lit "ERROR: Decoded data too short: "
                      ++ str_of_nat (len data)
                      ++ lit " bytes (expected at least 33)") ;;
        sys_exit 1
      else ret tt) ;;
     let private_key_bytes := slice 1 33 data in
     let private_key_hex := hex private_key_bytes in
     print private_key_hex)
    (fun e =>
       match e with
       | FileNotFoundError =>
           Some (print_stderr (lit "ERROR: Key file not found: "
                               ++ key_file_path) ;;
                 sys_exit 1)
       | _ =>
           if is_Exception e then
             Some (print_stderr (lit "ERROR: " ++ str_exn e) ;; sys_exit 1)
           else None
       end).

Definition main (a : argv) (fs : filesystem) : Py unit :=
  (if negb (Nat.eqb (len_argv a) 2) then
     print_stderr (lit "Usage: " ++ argv0 a ++ lit " <key_file_path>") ;;
     sys_exit 1
   else ret tt) ;;
  key_file_path <- argv_get a 1 ;;
  extract_private_key fs key_file_path.

(** What the operating system sees of one run. *)
Record outcome : Type :=
  { out : pystr; err : pystr; exit_code : Z }.

(** Running the script: normal completion exits with 0, [sys.exit(code)]
    with [code]; an exception nobody caught prints a traceback ending in
    its message and exits with 1. *)
Definition run_script (a : argv) (fs : filesystem) : outcome :=
  match main a fs {| stdout := []; stderr := [] |} with
  | (w, inr _) => {| out := stdout w; err := stderr w; exit_code := 0 |}
  | (w, inl (SystemExit code)) =>
      {| out := stdout w; err := stderr w; exit_code := code |}
  | (w, inl e) =>
      {| out := stdout w;
         err := stderr w ++ lit "Traceback (most recent call last):"
                ++ [10] ++ str_exn e ++ [10];
         exit_code := 1 |}
  end.

(** The invocation [prog path]. *)
Definition invoke (prog path : pystr) : argv :=
  {| argv0 := prog; argv_args := [path] |}.

(** A file system holding one file. *)
Definition pystr_eqb (x y : pystr) : bool :=
  if list_eq_dec N.eq_dec x y then true else false.

Definition one_file (path text : pystr) : filesystem :=
  fun p => if pystr_eqb p path then ReadText text else ReadNotFound.

Local Close Scope py_scope.

(** ** Auxiliary notions for the proofs *)

Definition all_space (w : pystr) : Prop := Forall (fun c => isspace c = true) w.
Definition no_space (s : pystr) : Prop := Forall (fun c => isspace c = false) s.
Definition ascii_str (s : pystr) : Prop := Forall (fun c => c < 128) s.

(** The numbers below [n], for checking a property of bytes or of 6-bit
    values by running through all of them. *)
Fixpoint below (n : nat) : list N :=
  match n with
  | O => []
  | S k => N.of_nat k :: below k
  end.

Definition all_below (n : nat) (P : N -> bool) : bool := forallb P (below n).

Definition all_below2 (n : nat) (P : N -> N -> bool) : bool :=
  all_below n (fun x => all_below n (P x)).

(** The facts about one 6-bit value and its character. *)
Definition table_check (v : N) : bool :=
  (table_a2b_base64 (table_b2a_base64 v) =? v)
  && negb (table_b2a_base64 v =? BASE64_PAD)
  && negb (isspace (table_b2a_base64 v))
  && (table_b2a_base64 v <? 128).

(** The facts about the 6-bit values of two neighbouring bytes that the
    decoder relies on. *)
Definition sextet_check (x y : N) : bool :=
  (sextet0 x <? 64) && (sextet1 x y <? 64) && (sextet2 x y <? 64)
  && (sextet3 x <? 64)
  && (N.land (N.lor (N.shiftl (sextet0 x) 2) (N.shiftr (sextet1 x y) 4)) 255 =? x)
  && (N.land (sextet1 x y) 15 =? N.shiftr y 4)
  && (N.land (N.lor (N.shiftl (N.shiftr x 4) 4) (N.shiftr (sextet2 x y) 2)) 255 =? x)
  && (N.land (sextet2 x y) 3 =? N.shiftr y 6)
  && (N.land (N.lor (N.shiftl (N.shiftr x 6) 6) (sextet3 x)) 255 =? x).

Definition is_lower_hex (c : N) : bool :=
  ((48 <=? c) && (c <=? 57)) || ((97 <=? c) && (c <=? 102)).

(** Both digits of a byte are lowercase hexadecimal digits. *)
Definition hex_check (x : N) : bool :=
  is_lower_hex (hexdigit (N.shiftr x 4)) && is_lower_hex (hexdigit (N.land x 15)).

(** An ASCII whitespace character is no pad and no alphabet character. *)
Definition space_check (c : N) : bool :=
  implb (isspace c) (negb (c =? BASE64_PAD) && (64 <=? table_a2b_base64 c)).

(** The number of alphabet characters of a text. *)
Definition data_chars (s : pystr) : nat := len (filter in_alphabet s).

(** The characters the lenient decoder looks at: alphabet characters and
    [=]. *)
Definition significant (c : N) : bool := in_alphabet c || (c =? BASE64_PAD).

(** What a group entered at [quad_pos] still owes in output: with [n] more
    alphabet characters at most [(3 * n + slack quad_pos) / 4] bytes are
    written. *)
Definition slack (quad_pos : N) : nat :=
  match quad_pos with
  | 0 => 0
  | 1 => 3
  | 2 => 2
  | _ => 1
  end.

(** A whitespace character is never an alphabet character. *)
Definition space_alphabet_check (c : N) : bool :=
  negb (isspace c && in_alphabet c).

(** Two bytes with the same two digits are the same byte. *)
Definition hex_inj_check (x y : N) : bool :=
  implb ((hexdigit (N.shiftr x 4) =? hexdigit (N.shiftr y 4))
         && (hexdigit (N.land x 15) =? hexdigit (N.land y 15)))
        (x =? y).

(** A key file as [base64 -w width] writes it: a line feed after every
    [width] characters and at the end; [col] is the room left on the
    current line. *)
Fixpoint wrap_lines (width col : nat) (s : pystr) : pystr :=
  match s with
  | [] => [10]
  | c :: r =>
      match col with
      | O => 10 :: c :: wrap_lines width (width - 1) r
      | S k => c :: wrap_lines width k r
      end
  end.

Definition wrapped (width : nat) (s : pystr) : pystr :=
  wrap_lines width width s.

(** ** Sample inputs *)

Definition sample_prog : pystr := lit "./extract_privatekey.py".
Definition sample_path : pystr := lit "starcoin_client.key".

(** The flag byte [0x00] followed by the bytes [0x01..0x20]. *)
Definition sample_key : bytes := 0 :: map N.of_nat (seq 1 32).

(** The same key material behind another flag and before trailing bytes. *)
Definition sample_key_long : bytes :=
  1 :: map N.of_nat (seq 1 32) ++ [255; 254; 253].

(** Thirty-two zero bytes: one byte short. *)
Definition sample_short : bytes := repeat 0 32.

(** Unfolding a run of the script down to the monad's operations. *)
Ltac run_program :=
  unfold run_script, main, extract_private_key, try_except, bind, open_read,
    argv_get, lift, ret, raise, sys_exit, print, print_stderr, invoke,
    len_argv, len.

(** * Properties *)

(** ** The runtime functions on sample values *)

Example b64encode_one_byte : b64encode [255] = lit "/w==".
Proof. reflexivity. Qed.

Example b64encode_two_bytes : b64encode [251; 255] = lit "+/8=".
Proof. reflexivity. Qed.

Example b64encode_three_bytes : b64encode (lit "Man") = lit "TWFu".
Proof. reflexivity. Qed.

Example b64decode_plain : b64decode (lit "QUJD") = inr (lit "ABC").
Proof. reflexivity. Qed.

Example b64decode_pad_inside : b64decode (lit "AA=A=") = inr [0; 0].
Proof. reflexivity. Qed.

Example b64decode_pad_at_group_start :
  b64decode (lit "AAAA==AAAA") = inr [0; 0; 0; 0; 0; 0].
Proof. reflexivity. Qed.

Example b64decode_pad_split : b64decode (lit "AA=!=AAAA") = inr [0].
Proof. reflexivity. Qed.

Example b64decode_short_padding :
  b64decode (lit "AA=") = inl (BinasciiError (lit "Incorrect padding")).
Proof. reflexivity. Qed.

Example hex_sample : hex [0; 15; 16; 255; 171] = lit "000f10ffab".
Proof. reflexivity. Qed.

Example strip_sample :
  strip ([8195; 32] ++ lit "a b" ++ [32; 31; 133]) = lit "a b".
Proof. reflexivity. Qed.

Example str_of_nat_sample : str_of_nat 32 = lit "32".
Proof. reflexivity. Qed.

(** ** Whitespace stripping *)

Lemma lstrip_all_space (w s : pystr) :
  all_space w -> lstrip (w ++ s) = lstrip s.
Proof.
  induction 1 as [|c w Hc _ IH]; simpl; [reflexivity|].
  now rewrite Hc.
Qed.

Lemma lstrip_app_cases (s w : pystr) :
  lstrip (s ++ w) = lstrip s ++ w \/ (lstrip s = [] /\ all_space s).
Proof.
  induction s as [|c s IH]; simpl.
  - right. split; [reflexivity | constructor].
  - destruct (isspace c) eqn:Hc.
    + destruct IH as [IH | [IH Hs]]; [now left|].
      right. split; [assumption | now constructor].
    + now left.
Qed.

Lemma rstrip_all_space (s w : pystr) :
  all_space w -> rstrip (s ++ w) = rstrip s.
Proof.
  intros Hw. unfold rstrip. rewrite rev_app_distr.
  rewrite lstrip_all_space; [reflexivity|].
  now apply Forall_rev.
Qed.

Lemma rstrip_nil_of_all_space (w : pystr) : all_space w -> rstrip w = [].
Proof.
  intros Hw. change w with ([] ++ w). now rewrite rstrip_all_space.
Qed.

Lemma strip_all_space (w : pystr) : all_space w -> strip w = [].
Proof.
  intros Hw. unfold strip.
  rewrite <- (app_nil_r w), lstrip_all_space by assumption.
  reflexivity.
Qed.

Lemma strip_surrounded (w1 s w2 : pystr) :
  all_space w1 -> all_space w2 -> strip (w1 ++ s ++ w2) = strip s.
Proof.
  intros H1 H2. unfold strip. rewrite lstrip_all_space by assumption.
  destruct (lstrip_app_cases s w2) as [E | [E Hs]].
  - rewrite E. now apply rstrip_all_space.
  - rewrite E. rewrite lstrip_all_space by assumption.
    rewrite <- (app_nil_r w2), lstrip_all_space by assumption.
    reflexivity.
Qed.

Lemma lstrip_no_space (s : pystr) : no_space s -> lstrip s = s.
Proof.
  destruct 1 as [|c s Hc _]; simpl; [reflexivity|]. now rewrite Hc.
Qed.

Lemma strip_no_space (s : pystr) : no_space s -> strip s = s.
Proof.
  intros Hs. unfold strip, rstrip. rewrite (lstrip_no_space s Hs).
  rewrite lstrip_no_space by now apply Forall_rev.
  apply rev_involutive.
Qed.

(** ** Checking all small numbers *)

Lemma below_In (n : nat) (x : N) : x < N.of_nat n -> In x (below n).
Proof.
  induction n as [|k IH]; intros Hx; [lia|].
  simpl. destruct (N.eq_dec x (N.of_nat k)) as [->|Hne]; [now left|].
  right. apply IH. lia.
Qed.

Lemma all_below_spec (n : nat) (P : N -> bool) :
  all_below n P = true -> forall x, x < N.of_nat n -> P x = true.
Proof.
  unfold all_below. rewrite forallb_forall. intros H x Hx.
  apply H. now apply below_In.
Qed.

Lemma all_below2_spec (n : nat) (P : N -> N -> bool) :
  all_below2 n P = true ->
  forall x y, x < N.of_nat n -> y < N.of_nat n -> P x y = true.
Proof.
  intros H x y Hx Hy.
  apply (all_below_spec n (P x)); [|assumption].
  apply (all_below_spec n (fun x => all_below n (P x))); assumption.
Qed.

Lemma table_check_all (v : N) : v < 64 -> table_check v = true.
Proof.
  apply (all_below_spec 64 table_check). vm_compute. reflexivity.
Qed.

Lemma sextet_check_all (x y : N) : x < 256 -> y < 256 -> sextet_check x y = true.
Proof.
  apply (all_below2_spec 256 sextet_check). vm_compute. reflexivity.
Qed.

Lemma sextet_facts (x y : N) :
  x < 256 -> y < 256 ->
  sextet0 x < 64 /\ sextet1 x y < 64 /\ sextet2 x y < 64 /\ sextet3 x < 64
  /\ N.land (N.lor (N.shiftl (sextet0 x) 2) (N.shiftr (sextet1 x y) 4)) 255 = x
  /\ N.land (sextet1 x y) 15 = N.shiftr y 4
  /\ N.land (N.lor (N.shiftl (N.shiftr x 4) 4) (N.shiftr (sextet2 x y) 2)) 255 = x
  /\ N.land (sextet2 x y) 3 = N.shiftr y 6
  /\ N.land (N.lor (N.shiftl (N.shiftr x 6) 6) (sextet3 x)) 255 = x.
Proof.
  intros Hx Hy. pose proof (sextet_check_all x y Hx Hy) as H.
  unfold sextet_check in H.
  repeat rewrite andb_true_iff in H.
  repeat rewrite N.ltb_lt in H. repeat rewrite N.eqb_eq in H.
  tauto.
Qed.

Lemma table_facts (v : N) :
  v < 64 ->
  table_a2b_base64 (table_b2a_base64 v) = v
  /\ (table_b2a_base64 v =? BASE64_PAD) = false
  /\ isspace (table_b2a_base64 v) = false
  /\ (table_b2a_base64 v <? 128) = true.
Proof.
  intros Hv. pose proof (table_check_all v Hv) as H.
  unfold table_check in H.
  repeat rewrite andb_true_iff in H. repeat rewrite negb_true_iff in H.
  rewrite N.eqb_eq in H. tauto.
Qed.

(** ** The decoding loop on encoded text *)

(** One step of the loop on the character of a 6-bit value. *)
Lemma a2b_loop_data (v : N) (rest : list N) (quad_pos leftchar pads : N) :
  v < 64 ->
  a2b_loop (table_b2a_base64 v :: rest) quad_pos leftchar pads =
  match quad_pos with
  | 0 => a2b_loop rest 1 v 0
  | 1 => emit (N.lor (N.shiftl leftchar 2) (N.shiftr v 4))
              (a2b_loop rest 2 (N.land v 15) 0)
  | 2 => emit (N.lor (N.shiftl leftchar 4) (N.shiftr v 2))
              (a2b_loop rest 3 (N.land v 3) 0)
  | _ => emit (N.lor (N.shiftl leftchar 6) v) (a2b_loop rest 0 0 0)
  end.
Proof.
  intros Hv. destruct (table_facts v Hv) as (Ht & Hp & _ & _).
  cbn [a2b_loop]. rewrite Hp, Ht.
  replace (64 <=? v) with false by (symmetry; apply N.leb_gt; exact Hv).
  reflexivity.
Qed.

(** A full group of four characters gives back its three bytes and leaves
    the loop in its initial state. *)
Lemma a2b_loop_group (x y z : N) (rest : list N) (leftchar pads : N) :
  x < 256 -> y < 256 -> z < 256 ->
  a2b_loop (table_b2a_base64 (sextet0 x) :: table_b2a_base64 (sextet1 x y)
            :: table_b2a_base64 (sextet2 y z) :: table_b2a_base64 (sextet3 z)
            :: rest) 0 leftchar pads
  = (x :: y :: z :: fst (a2b_loop rest 0 0 0), snd (a2b_loop rest 0 0 0)).
Proof.
  intros Hx Hy Hz.
  destruct (sextet_facts x y Hx Hy) as (A0 & A1 & _ & _ & B1 & C1 & _).
  destruct (sextet_facts y z Hy Hz) as (_ & _ & A2 & _ & _ & _ & D1 & E1 & _).
  destruct (sextet_facts z z Hz Hz) as (_ & _ & _ & A3 & _ & _ & _ & _ & F1).
  rewrite (a2b_loop_data _ _ 0) by assumption.
  rewrite (a2b_loop_data _ _ 1) by assumption.
  rewrite (a2b_loop_data _ _ 2) by assumption.
  rewrite (a2b_loop_data _ _ 3) by assumption.
  unfold emit. cbn [fst snd].
  rewrite C1, E1, B1, D1, F1. reflexivity.
Qed.

(** A final group of one byte. *)
Lemma a2b_loop_last1 (x : N) (leftchar pads : N) :
  x < 256 ->
  a2b_loop [table_b2a_base64 (sextet0 x); table_b2a_base64 (sextet1 x 0);
            BASE64_PAD; BASE64_PAD] 0 leftchar pads
  = ([x], PadDone).
Proof.
  intros Hx.
  destruct (sextet_facts x 0 Hx ltac:(lia)) as (A0 & A1 & _ & _ & B1 & _).
  rewrite (a2b_loop_data _ _ 0) by assumption.
  rewrite (a2b_loop_data _ _ 1) by assumption.
  unfold emit. rewrite B1. reflexivity.
Qed.

(** A final group of two bytes. *)
Lemma a2b_loop_last2 (x y : N) (leftchar pads : N) :
  x < 256 -> y < 256 ->
  a2b_loop [table_b2a_base64 (sextet0 x); table_b2a_base64 (sextet1 x y);
            table_b2a_base64 (sextet2 y 0); BASE64_PAD] 0 leftchar pads
  = ([x; y], PadDone).
Proof.
  intros Hx Hy.
  destruct (sextet_facts x y Hx Hy) as (A0 & A1 & _ & _ & B1 & C1 & _).
  destruct (sextet_facts y 0 Hy ltac:(lia)) as (_ & _ & A2 & _ & _ & _ & D1 & _).
  rewrite (a2b_loop_data _ _ 0) by assumption.
  rewrite (a2b_loop_data _ _ 1) by assumption.
  rewrite (a2b_loop_data _ _ 2) by assumption.
  unfold emit. rewrite C1, B1, D1. reflexivity.
Qed.

Lemma list_ind3 {A} (P : list A -> Prop) :
  P [] -> (forall x, P [x]) -> (forall x y, P [x; y]) ->
  (forall x y z r, P r -> P (x :: y :: z :: r)) ->
  forall l, P l.
Proof.
  intros H0 H1 H2 H3.
  refine (fix F (l : list A) : P l :=
            match l with
            | [] => H0
            | [x] => H1 x
            | [x; y] => H2 x y
            | x :: y :: z :: r => H3 x y z r (F r)
            end).
Qed.

Lemma a2b_loop_b64encode (b : bytes) :
  is_bytes b ->
  forall leftchar pads,
    fst (a2b_loop (b64encode b) 0 leftchar pads) = b
    /\ (snd (a2b_loop (b64encode b) 0 leftchar pads) = PadDone
        \/ snd (a2b_loop (b64encode b) 0 leftchar pads) = LoopEnd 0).
Proof.
  induction b as [|x|x y|x y z r IH] using list_ind3; intros Hb lc p.
  - simpl. auto.
  - inversion_clear Hb. cbn [b64encode]. rewrite a2b_loop_last1 by assumption.
    simpl. auto.
  - inversion_clear Hb as [|? ? Hx Hb']. inversion_clear Hb'.
    cbn [b64encode]. rewrite a2b_loop_last2 by assumption. simpl. auto.
  - inversion_clear Hb as [|? ? Hx Hb1]. inversion_clear Hb1 as [|? ? Hy Hb2].
    inversion_clear Hb2 as [|? ? Hz Hr].
    cbn [b64encode]. rewrite a2b_loop_group by assumption.
    cbn [fst snd]. destruct (IH Hr 0 0) as [E1 E2].
    rewrite E1. auto.
Qed.

Lemma a2b_base64_b64encode (b : bytes) :
  is_bytes b -> a2b_base64 (b64encode b) = inr b.
Proof.
  intros Hb. unfold a2b_base64.
  destruct (a2b_loop_b64encode b Hb 0 0) as [E1 E2].
  destruct (a2b_loop (b64encode b) 0 0 0) as [bin e]. simpl in *. subst bin.
  destruct E2 as [-> | ->]; reflexivity.
Qed.

Lemma b64encode_chars (b : bytes) :
  is_bytes b ->
  Forall (fun c => (c <? 128) = true /\ isspace c = false) (b64encode b).
Proof.
  assert (Hpad : (BASE64_PAD <? 128) = true /\ isspace BASE64_PAD = false)
    by (split; reflexivity).
  assert (Hv : forall v, v < 64 ->
             (table_b2a_base64 v <? 128) = true
             /\ isspace (table_b2a_base64 v) = false).
  { intros v Hv. destruct (table_facts v Hv) as (_ & _ & ? & ?). now split. }
  induction b as [|x|x y|x y z r IH] using list_ind3; intros Hb.
  - constructor.
  - inversion_clear Hb as [|? ? Hx _].
    destruct (sextet_facts x 0 Hx ltac:(lia)) as (A0 & A1 & _).
    cbn [b64encode]. repeat constructor; auto; apply Hv; assumption.
  - inversion_clear Hb as [|? ? Hx Hb']. inversion_clear Hb' as [|? ? Hy _].
    destruct (sextet_facts x y Hx Hy) as (A0 & A1 & _).
    destruct (sextet_facts y 0 Hy ltac:(lia)) as (_ & _ & A2 & _).
    cbn [b64encode]. repeat constructor; auto; apply Hv; assumption.
  - inversion_clear Hb as [|? ? Hx Hb1]. inversion_clear Hb1 as [|? ? Hy Hb2].
    inversion_clear Hb2 as [|? ? Hz Hr].
    destruct (sextet_facts x y Hx Hy) as (A0 & A1 & _).
    destruct (sextet_facts y z Hy Hz) as (_ & _ & A2 & _).
    destruct (sextet_facts z z Hz Hz) as (_ & _ & _ & A3 & _).
    cbn [b64encode]. repeat (constructor; [apply Hv; assumption|]).
    apply IH, Hr.
Qed.

Lemma b64decode_b64encode (b : bytes) :
  is_bytes b -> b64decode (b64encode b) = inr b.
Proof.
  intros Hb. unfold b64decode, encode_ascii.
  replace (forallb (fun c => c <? 128) (b64encode b)) with true.
  - now apply a2b_base64_b64encode.
  - symmetry. apply forallb_forall. intros c Hc.
    pose proof (b64encode_chars b Hb) as H. rewrite Forall_forall in H.
    now apply H.
Qed.

Lemma strip_b64encode (b : bytes) :
  is_bytes b -> strip (b64encode b) = b64encode b.
Proof.
  intros Hb. apply strip_no_space.
  eapply Forall_impl; [|apply b64encode_chars; exact Hb].
  now intros c [_ H].
Qed.

(** ** What the decoder returns *)

Lemma land_255_lt (b : N) : N.land b 255 < 256.
Proof.
  change 255 with (N.ones 8). rewrite N.land_ones.
  apply N.mod_lt. discriminate.
Qed.

Lemma a2b_loop_bytes (s : list N) :
  forall quad_pos leftchar pads,
    is_bytes (fst (a2b_loop s quad_pos leftchar pads)).
Proof.
  induction s as [|c s IH]; intros q lc p; cbn [a2b_loop].
  - constructor.
  - destruct (c =? BASE64_PAD).
    + destruct (2 <=? q); [|apply IH].
      destruct (4 <=? q + (p + 1)); [constructor | apply IH].
    + destruct (64 <=? table_a2b_base64 c); [apply IH|].
      destruct q as [|[[[]|[]|]|[[]|[]|]|]];
        unfold emit; cbn [fst]; try (constructor; [apply land_255_lt | apply IH]).
      apply IH.
Qed.

Lemma a2b_base64_bytes (s : bytes) (data : bytes) :
  a2b_base64 s = inr data -> is_bytes data.
Proof.
  unfold a2b_base64. pose proof (a2b_loop_bytes s 0 0 0) as H.
  destruct (a2b_loop s 0 0 0) as [bin [q|]]; cbn [fst] in H.
  - destruct (q =? 0); [intros [= <-]; exact H|].
    destruct (q =? 1); discriminate.
  - intros [= <-]; exact H.
Qed.

Lemma b64decode_bytes (s : pystr) (data : bytes) :
  b64decode s = inr data -> is_bytes data.
Proof.
  unfold b64decode. destruct (encode_ascii s); [|discriminate].
  apply a2b_base64_bytes.
Qed.

(** The decoder raises [ValueError] or [binascii.Error], nothing else. *)
Lemma b64decode_exn (s : pystr) (e : exn) :
  b64decode s = inl e ->
  (exists msg, e = ValueError msg) \/ (exists msg, e = BinasciiError msg).
Proof.
  unfold b64decode, a2b_base64.
  destruct (encode_ascii s).
  - destruct (a2b_loop b 0 0 0) as [bin [q|]]; [|discriminate].
    destruct (q =? 0); [discriminate|].
    destruct (q =? 1); intros [= <-]; right; eexists; reflexivity.
  - intros [= <-]. left; eexists; reflexivity.
Qed.

Lemma b64decode_nil : b64decode [] = inr [].
Proof. reflexivity. Qed.

Lemma b64decode_non_ascii (s : pystr) (c : N) :
  In c s -> 128 <= c ->
  b64decode s
  = inl (ValueError (lit "string argument should contain only ASCII characters")).
Proof.
  intros Hin Hc. unfold b64decode, encode_ascii.
  destruct (forallb (fun c => c <? 128) s) eqn:E; [|reflexivity].
  rewrite forallb_forall in E. specialize (E c Hin).
  apply N.ltb_lt in E. lia.
Qed.

(** ** The runs of the program, path by path *)

Lemma run_usage (a : argv) (fs : filesystem) :
  len (argv_args a) <> 1%nat ->
  run_script a fs
  = {| out := [];
       err := (lit "Usage: " ++ argv0 a ++ lit " <key_file_path>") ++ [10];
       exit_code := 1 |}.
Proof.
  intros Hn. run_program.
  destruct (argv_args a) as [|p [|q r]]; try reflexivity.
  now contradiction Hn.
Qed.

Lemma run_not_found (prog path : pystr) (fs : filesystem) :
  fs path = ReadNotFound ->
  run_script (invoke prog path) fs
  = {| out := [];
       err := (lit "ERROR: Key file not found: " ++ path) ++ [10];
       exit_code := 1 |}.
Proof.
  intros H. run_program. cbn. rewrite H. reflexivity.
Qed.

Lemma run_read_fails (prog path msg : pystr) (fs : filesystem) :
  fs path = ReadFails msg ->
  run_script (invoke prog path) fs
  = {| out := []; err := (lit "ERROR: " ++ msg) ++ [10]; exit_code := 1 |}.
Proof.
  intros H. run_program. cbn. rewrite H. reflexivity.
Qed.

Lemma run_decode_fails (prog path text : pystr) (fs : filesystem) (e : exn) :
  fs path = ReadText text ->
  b64decode (strip text) = inl e ->
  run_script (invoke prog path) fs
  = {| out := []; err := (lit "ERROR: " ++ str_exn e) ++ [10];
       exit_code := 1 |}.
Proof.
  intros H He. run_program. cbn. rewrite H, He.
  destruct (b64decode_exn _ _ He) as [[msg ->] | [msg ->]]; reflexivity.
Qed.

Lemma run_too_short (prog path text : pystr) (fs : filesystem) (data : bytes) :
  fs path = ReadText text ->
  b64decode (strip text) = inr data ->
  (len data < 33)%nat ->
  run_script (invoke prog path) fs
  = {| out := [];
       err := (lit "ERROR: Decoded data too short: " ++ str_of_nat (len data)
               ++ lit " bytes (expected at least 33)") ++ [10];
       exit_code := 1 |}.
Proof.
  intros H Hd Hl. run_program. cbn [argv0 argv_args nth_error Nat.eqb negb List.length].
  rewrite H, Hd.
  apply Nat.ltb_lt in Hl. unfold len in Hl. rewrite Hl.
  reflexivity.
Qed.

Lemma run_success (prog path text : pystr) (fs : filesystem) (data : bytes) :
  fs path = ReadText text ->
  b64decode (strip text) = inr data ->
  (33 <= len data)%nat ->
  run_script (invoke prog path) fs
  = {| out := hex (slice 1 33 data) ++ [10]; err := []; exit_code := 0 |}.
Proof.
  intros H Hd Hl. run_program. cbn [argv0 argv_args nth_error Nat.eqb negb List.length].
  rewrite H, Hd.
  apply Nat.ltb_ge in Hl. unfold len in Hl. rewrite Hl.
  reflexivity.
Qed.

Lemma argv_invoke (a : argv) :
  len (argv_args a) = 1%nat ->
  exists path, a = invoke (argv0 a) path.
Proof.
  destruct a as [p0 [|p [|q r]]]; cbn; try discriminate.
  intros _. now exists p.
Qed.

(** ** Slices and hexadecimal text *)

Lemma Forall_firstn_of {A} (P : A -> Prop) (n : nat) (l : list A) :
  Forall P l -> Forall P (firstn n l).
Proof.
  intros H. revert n. induction H as [|x l Hx _ IH]; intros [|n]; cbn;
    constructor; auto.
Qed.

Lemma Forall_skipn_of {A} (P : A -> Prop) (n : nat) (l : list A) :
  Forall P l -> Forall P (skipn n l).
Proof.
  intros H. revert n. induction H as [|x l Hx Hl IH]; intros [|n]; cbn; auto.
Qed.

Lemma Forall_slice {A} (P : A -> Prop) (lo hi : nat) (l : list A) :
  Forall P l -> Forall P (slice lo hi l).
Proof.
  intros H. unfold slice. now apply Forall_firstn_of, Forall_skipn_of.
Qed.

Lemma length_slice_key (data : bytes) :
  (33 <= len data)%nat -> len (slice 1 33 data) = 32%nat.
Proof.
  unfold len, slice. intros H.
  rewrite length_firstn, length_skipn. cbn [Nat.sub]. lia.
Qed.

Lemma nth_error_slice_key {A} (l : list A) (i : nat) :
  nth_error (slice 1 33 l) i
  = if (i <? 32)%nat then nth_error l (S i) else None.
Proof.
  unfold slice. change (33 - 1)%nat with 32%nat.
  rewrite nth_error_firstn, nth_error_skipn. reflexivity.
Qed.

Lemma slice_key_ext {A} (l1 l2 : list A) :
  (forall i, (1 <= i <= 32)%nat -> nth_error l1 i = nth_error l2 i) ->
  slice 1 33 l1 = slice 1 33 l2.
Proof.
  intros H. apply nth_error_ext. intros i.
  rewrite !nth_error_slice_key.
  destruct (i <? 32)%nat eqn:E; [|reflexivity].
  apply Nat.ltb_lt in E. apply H. lia.
Qed.

Lemma length_hex (b : bytes) : len (hex b) = (2 * len b)%nat.
Proof.
  unfold len, hex. rewrite (flat_map_constant_length (c := 2)); [lia|].
  reflexivity.
Qed.

Lemma hex_lower (b : bytes) :
  is_bytes b -> forallb is_lower_hex (hex b) = true.
Proof.
  induction 1 as [|x b Hx _ IH]; [reflexivity|].
  pose proof (all_below_spec 256 hex_check eq_refl x Hx) as Hc.
  unfold hex_check in Hc. apply andb_true_iff in Hc as [H1 H2].
  cbn [hex flat_map app forallb]. rewrite H1, H2. exact IH.
Qed.

(** ** The decoder and surrounding whitespace *)

Lemma a2b_loop_skip_space (c : N) (rest : list N) (quad_pos leftchar pads : N) :
  isspace c = true -> c < 128 ->
  a2b_loop (c :: rest) quad_pos leftchar pads
  = a2b_loop rest quad_pos leftchar pads.
Proof.
  intros Hs Hc.
  pose proof (all_below_spec 128 space_check eq_refl c Hc) as H.
  unfold space_check in H. rewrite Hs in H. cbn [implb] in H.
  apply andb_true_iff in H as [H1 H2]. apply negb_true_iff in H1.
  cbn [a2b_loop]. rewrite H1, H2. reflexivity.
Qed.

Lemma a2b_loop_leading_space (w s : list N) :
  all_space w -> ascii_str w ->
  forall quad_pos leftchar pads,
    a2b_loop (w ++ s) quad_pos leftchar pads
    = a2b_loop s quad_pos leftchar pads.
Proof.
  induction 1 as [|c w Hc _ IH]; intros Ha q lc p; [reflexivity|].
  inversion_clear Ha as [|? ? Hc' Hw'].
  cbn [app]. rewrite a2b_loop_skip_space by assumption. now apply IH.
Qed.

Lemma a2b_loop_trailing_space (s w : list N) :
  all_space w -> ascii_str w ->
  forall quad_pos leftchar pads,
    a2b_loop (s ++ w) quad_pos leftchar pads
    = a2b_loop s quad_pos leftchar pads.
Proof.
  intros Hw Ha. induction s as [|c s IH]; intros q lc p.
  - cbn [app]. rewrite <- (app_nil_r w).
    now rewrite a2b_loop_leading_space.
  - cbn [app a2b_loop]. rewrite !IH. reflexivity.
Qed.

Lemma lstrip_decomp (s : pystr) :
  exists w, all_space w /\ s = w ++ lstrip s.
Proof.
  induction s as [|c s (w & Hw & E)].
  - exists []. split; [constructor | reflexivity].
  - cbn [lstrip]. destruct (isspace c) eqn:Hc.
    + exists (c :: w). split; [now constructor|]. cbn [app]. now f_equal.
    + exists []. split; [constructor | reflexivity].
Qed.

Lemma strip_decomp (s : pystr) :
  exists w1 w2, all_space w1 /\ all_space w2 /\ s = w1 ++ strip s ++ w2.
Proof.
  destruct (lstrip_decomp s) as (w1 & H1 & E1).
  destruct (lstrip_decomp (rev (lstrip s))) as (w2 & H2 & E2).
  exists w1, (rev w2). split; [assumption|]. split; [now apply Forall_rev|].
  unfold strip, rstrip. rewrite <- rev_app_distr, <- E2, rev_involutive.
  exact E1.
Qed.

(** Decoding the stripped text of an ASCII string gives what decoding the
    string itself gives. *)
Lemma b64decode_strip (s : pystr) :
  ascii_str s -> b64decode (strip s) = b64decode s.
Proof.
  intros Ha. destruct (strip_decomp s) as (w1 & w2 & H1 & H2 & E).
  assert (Hparts : ascii_str w1 /\ ascii_str (strip s) /\ ascii_str w2).
  { unfold ascii_str in *. rewrite E in Ha.
    apply Forall_app in Ha as [? Ha]. apply Forall_app in Ha as [? ?]. auto. }
  destruct Hparts as (A1 & A2 & A3).
  assert (Hasc : forall t, ascii_str t -> encode_ascii t = Some t).
  { intros t Ht. unfold encode_ascii.
    replace (forallb (fun c => c <? 128) t) with true; [reflexivity|].
    symmetry. apply forallb_forall. intros c Hc.
    apply N.ltb_lt. unfold ascii_str in Ht. rewrite Forall_forall in Ht. auto. }
  unfold b64decode. rewrite (Hasc s Ha), (Hasc (strip s) A2).
  unfold a2b_base64. rewrite E at 2.
  rewrite a2b_loop_leading_space, a2b_loop_trailing_space by assumption.
  reflexivity.
Qed.

Lemma b64decode_ok_ascii (s : pystr) (data : bytes) :
  b64decode s = inr data -> ascii_str s.
Proof.
  unfold b64decode, encode_ascii.
  destruct (forallb (fun c => c <? 128) s) eqn:E; [|discriminate].
  intros _. apply Forall_forall. intros c Hc.
  rewrite forallb_forall in E. apply N.ltb_lt. auto.
Qed.

(** ** All runs at once *)

Lemma line_not_nil (x : pystr) : x ++ [10] <> [].
Proof. destruct x; discriminate. Qed.

Lemma is_bytes_forallb (b : bytes) :
  forallb (fun x => x <? 256) b = true -> is_bytes b.
Proof.
  intros H. apply Forall_forall. intros x Hx.
  rewrite forallb_forall in H. apply N.ltb_lt. auto.
Qed.

Lemma one_file_same (path text : pystr) : one_file path text path = ReadText text.
Proof.
  unfold one_file, pystr_eqb.
  destruct (list_eq_dec N.eq_dec path path); [reflexivity | contradiction].
Qed.

(** Every run either fails with status 1, an empty standard output and a
    diagnostic line, or succeeds with status 0, no diagnostic and the key
    of some decoded payload of at least 33 bytes. *)
Lemma run_script_cases (a : argv) (fs : filesystem) :
  (exit_code (run_script a fs) = 1%Z
   /\ out (run_script a fs) = []
   /\ err (run_script a fs) <> [])
  \/ (exit_code (run_script a fs) = 0%Z
      /\ err (run_script a fs) = []
      /\ exists data,
           is_bytes data /\ (33 <= len data)%nat
           /\ out (run_script a fs) = hex (slice 1 33 data) ++ [10]).
Proof.
  destruct (Nat.eq_dec (len (argv_args a)) 1) as [Ha | Ha].
  - destruct (argv_invoke a Ha) as [path ->].
    set (prog := argv0 _). clearbody prog. clear Ha.
    destruct (fs path) as [text| |msg] eqn:Hf.
    + destruct (b64decode (strip text)) as [e|data] eqn:Hd.
      * rewrite (run_decode_fails _ _ _ _ _ Hf Hd). left.
        cbn [exit_code out err]. auto using line_not_nil.
      * destruct (Nat.lt_ge_cases (len data) 33) as [Hl | Hl].
        -- rewrite (run_too_short _ _ _ _ _ Hf Hd Hl). left.
           cbn [exit_code out err]. auto using line_not_nil.
        -- rewrite (run_success _ _ _ _ _ Hf Hd Hl). right.
           cbn [exit_code out err]. repeat split.
           exists data. eauto using b64decode_bytes.
    + rewrite (run_not_found _ _ _ Hf). left.
      cbn [exit_code out err]. auto using line_not_nil.
    + rewrite (run_read_fails _ _ _ _ Hf). left.
      cbn [exit_code out err]. auto using line_not_nil.
  - rewrite (run_usage _ _ Ha). left.
    cbn [exit_code out err]. auto using line_not_nil.
Qed.

(** ** When the lenient decoder fails *)

(** On text without [=], the loop ends with [quad_pos] equal to the number
    of alphabet characters modulo 4; every other character is skipped. *)
Lemma a2b_loop_no_pad (s : list N) :
  Forall (fun c => c <> BASE64_PAD) s ->
  forall quad_pos leftchar pads,
    quad_pos < 4 ->
    snd (a2b_loop s quad_pos leftchar pads)
    = LoopEnd ((quad_pos + N.of_nat (data_chars s)) mod 4).
Proof.
  induction 1 as [|c s Hc _ IH]; intros q lc p Hq.
  - cbn. rewrite N.add_0_r, N.mod_small by assumption. reflexivity.
  - cbn [a2b_loop]. apply N.eqb_neq in Hc. rewrite Hc.
    unfold data_chars, len in *. cbn [filter]. unfold in_alphabet at 1.
    destruct (64 <=? table_a2b_base64 c) eqn:E.
    + apply N.leb_le in E.
      replace (table_a2b_base64 c <? 64) with false
        by (symmetry; apply N.ltb_ge; exact E).
      now apply IH.
    + apply N.leb_gt in E.
      replace (table_a2b_base64 c <? 64) with true
        by (symmetry; apply N.ltb_lt; exact E).
      assert (Hq' : q = 0 \/ q = 1 \/ q = 2 \/ q = 3) by lia.
      destruct Hq' as [-> | [-> | [-> | ->]]]; unfold emit; cbn [snd];
        rewrite IH by lia; apply (f_equal LoopEnd).
      all: cbn [List.length]; rewrite Nat2N.inj_succ;
        generalize (N.of_nat (List.length (filter in_alphabet s))); intros n.
      1-3: apply (f_equal (fun x => x mod 4)); lia.
      replace (3 + N.succ n) with (0 + n + 1 * 4) by lia.
      symmetry. apply N.Div0.mod_add.
Qed.

Lemma b64decode_no_pad (s : pystr) :
  ascii_str s -> Forall (fun c => c <> BASE64_PAD) s ->
  (exists e, b64decode s = inl e) <-> (data_chars s mod 4 <> 0)%nat.
Proof.
  intros Ha Hp. unfold b64decode, encode_ascii.
  replace (forallb (fun c => c <? 128) s) with true.
  2:{ symmetry. apply forallb_forall. intros c Hc. apply N.ltb_lt.
      unfold ascii_str in Ha. rewrite Forall_forall in Ha. auto. }
  unfold a2b_base64.
  pose proof (a2b_loop_no_pad s Hp 0 0 0 ltac:(lia)) as H.
  destruct (a2b_loop s 0 0 0) as [bin e]. cbn [snd] in H. subst e.
  rewrite N.add_0_l.
  assert (Hm : N.of_nat (data_chars s) mod 4 = N.of_nat (data_chars s mod 4)).
  { pose proof (Nat.mod_upper_bound (data_chars s) 4 ltac:(lia)).
    pose proof (Nat.div_mod_eq (data_chars s) 4).
    symmetry. apply N.mod_unique with (q := N.of_nat (data_chars s / 4)); lia. }
  rewrite Hm.
  assert (Hz : N.of_nat (data_chars s mod 4) = 0 <-> (data_chars s mod 4 = 0)%nat)
    by lia.
  destruct (N.of_nat (data_chars s mod 4) =? 0) eqn:E0.
  - apply N.eqb_eq in E0. split; [intros [e He]; discriminate | tauto].
  - apply N.eqb_neq in E0. split; [tauto | intros _].
    destruct (N.of_nat (data_chars s mod 4) =? 1); eexists; reflexivity.
Qed.

(** * The claims of the specification *)

(** C1.  For every byte sequence [B] of at least 33 bytes, the run on a
    file holding the base64 encoding of [B] exits with status 0 and its
    standard output is the lowercase hexadecimal text of [B[1:33]], written
    as the one line that [print] ends with a newline; nothing goes to
    standard error. *)
Theorem extract_roundtrip (prog path : pystr) (fs : filesystem) (B : bytes) :
  is_bytes B ->
  (33 <= len B)%nat ->
  fs path = ReadText (b64encode B) ->
  run_script (invoke prog path) fs
  = {| out := hex (slice 1 33 B) ++ [10]; err := []; exit_code := 0 |}.
Proof.
  intros HB Hl Hf.
  apply (run_success prog path (b64encode B) fs B Hf); [|exact Hl].
  rewrite strip_b64encode by exact HB.
  now apply b64decode_b64encode.
Qed.

Lemma extract_roundtrip_witness :
  run_script (invoke sample_prog sample_path)
             (one_file sample_path (b64encode sample_key))
  = {| out := lit "0102030405060708090a0b0c0d0e0f101112131415161718191a1b1c1d1e1f20"
              ++ [10];
       err := [];
       exit_code := 0 |}.
Proof.
  apply (extract_roundtrip sample_prog sample_path
           (one_file sample_path (b64encode sample_key)) sample_key).
  - apply is_bytes_forallb. vm_compute. reflexivity.
  - vm_compute. lia.
  - vm_compute. reflexivity.
Defined.

(** C2.  When the decoded content of the file is shorter than 33 bytes,
    the run exits with status 1, writes nothing to standard output, and
    its standard error is the length diagnostic naming the decoded length
    and the minimum of 33. *)
Theorem short_payload_rejected
  (prog path text : pystr) (fs : filesystem) (data : bytes) :
  fs path = ReadText text ->
  b64decode (strip text) = inr data ->
  (len data < 33)%nat ->
  run_script (invoke prog path) fs
  = {| out := [];
       err := (lit "ERROR: Decoded data too short: " ++ str_of_nat (len data)
               ++ lit " bytes (expected at least 33)") ++ [10];
       exit_code := 1 |}.
Proof.
  intros Hf Hd Hl. exact (run_too_short prog path text fs data Hf Hd Hl).
Qed.

Lemma short_payload_rejected_witness :
  run_script (invoke sample_prog sample_path)
             (one_file sample_path (b64encode sample_short))
  = {| out := [];
       err := lit "ERROR: Decoded data too short: 32 bytes (expected at least 33)"
              ++ [10];
       exit_code := 1 |}.
Proof.
  apply (short_payload_rejected sample_prog sample_path
           (b64encode sample_short)
           (one_file sample_path (b64encode sample_short)) sample_short).
  - vm_compute. reflexivity.
  - vm_compute. reflexivity.
  - vm_compute. lia.
Defined.

(** C3, as the specification states it, fails: text that is not valid
    base64 because of a character outside the alphabet is accepted, since
    the decoder discards such characters.  Here [!] precedes the encoding
    of the sample key; the run succeeds and prints the key. *)
Lemma invalid_base64_accepted :
  valid_base64 (strip (33 :: b64encode sample_key)) = false
  /\ in_alphabet 33 = false
  /\ run_script (invoke sample_prog sample_path)
                (one_file sample_path (33 :: b64encode sample_key))
     = {| out := lit "0102030405060708090a0b0c0d0e0f101112131415161718191a1b1c1d1e1f20"
                 ++ [10];
          err := [];
          exit_code := 0 |}.
Proof. vm_compute. repeat split. Qed.

(** C3, amended.  Whenever [base64.b64decode] in its default lenient mode
    raises on the stripped content of the file, the run exits with status
    1, writes nothing to standard output, and its standard error is the
    decoder's message after [ERROR: ]. *)
Theorem decode_failure_reported
  (prog path text : pystr) (fs : filesystem) (e : exn) :
  fs path = ReadText text ->
  b64decode (strip text) = inl e ->
  run_script (invoke prog path) fs
  = {| out := []; err := (lit "ERROR: " ++ str_exn e) ++ [10];
       exit_code := 1 |}.
Proof.
  intros Hf He. exact (run_decode_fails prog path text fs e Hf He).
Qed.

Lemma decode_failure_reported_witness :
  run_script (invoke sample_prog sample_path)
             (one_file sample_path (lit "QUJDR"))
  = {| out := [];
       err := lit "ERROR: Invalid base64-encoded string: number of data characters (5) cannot be 1 more than a multiple of 4"
              ++ [10];
       exit_code := 1 |}.
Proof.
  apply (decode_failure_reported sample_prog sample_path (lit "QUJDR")
           (one_file sample_path (lit "QUJDR"))
           (BinasciiError (lit "Invalid base64-encoded string: number of data characters (5) cannot be 1 more than a multiple of 4"))).
  - vm_compute. reflexivity.
  - vm_compute. reflexivity.
Defined.

(** C4.  Every run that ends in an error has status 1, an empty standard
    output and its diagnostic on standard error; standard output carries
    text only on the success path, and then only the hexadecimal line of a
    key. *)
Theorem stdout_only_on_success (a : argv) (fs : filesystem) :
  (exit_code (run_script a fs) = 1%Z
   /\ out (run_script a fs) = []
   /\ err (run_script a fs) <> [])
  \/ (exit_code (run_script a fs) = 0%Z
      /\ err (run_script a fs) = []
      /\ exists data,
           is_bytes data /\ (33 <= len data)%nat
           /\ out (run_script a fs) = hex (slice 1 33 data) ++ [10]).
Proof. apply run_script_cases. Qed.

(** C5.  On every successful run standard output is exactly one line: 64
    lowercase hexadecimal characters with nothing between them, then a
    single newline; nothing is written to standard error. *)
Theorem success_output_format (a : argv) (fs : filesystem) :
  exit_code (run_script a fs) = 0%Z ->
  exists h,
    out (run_script a fs) = h ++ [10]
    /\ len h = 64%nat
    /\ forallb is_lower_hex h = true
    /\ ~ In 10 h
    /\ err (run_script a fs) = [].
Proof.
  intros H0.
  destruct (run_script_cases a fs) as [(H1 & _) | (_ & He & data & Hb & Hl & Ho)].
  - rewrite H0 in H1. discriminate.
  - exists (hex (slice 1 33 data)).
    assert (Hhex : forallb is_lower_hex (hex (slice 1 33 data)) = true)
      by (apply hex_lower, Forall_slice, Hb).
    repeat split; try assumption.
    + rewrite length_hex, length_slice_key by exact Hl. reflexivity.
    + intros Hin. rewrite forallb_forall in Hhex.
      specialize (Hhex 10 Hin). discriminate.
Qed.

Lemma success_output_format_witness :
  exists h,
    out (run_script (invoke sample_prog sample_path)
           (one_file sample_path (b64encode sample_key))) = h ++ [10]
    /\ len h = 64%nat
    /\ forallb is_lower_hex h = true
    /\ ~ In 10 h
    /\ err (run_script (invoke sample_prog sample_path)
              (one_file sample_path (b64encode sample_key))) = [].
Proof.
  apply (success_output_format (invoke sample_prog sample_path)
           (one_file sample_path (b64encode sample_key))).
  vm_compute. reflexivity.
Defined.

(** C6.  When the argument vector, program name included, does not have
    exactly two entries, the run exits with status 1, writes the usage
    line to standard error and nothing to standard output. *)
Theorem wrong_argument_count (a : argv) (fs : filesystem) :
  len_argv a <> 2%nat ->
  run_script a fs
  = {| out := [];
       err := (lit "Usage: " ++ argv0 a ++ lit " <key_file_path>") ++ [10];
       exit_code := 1 |}.
Proof.
  intros H. apply run_usage. unfold len_argv in H. lia.
Qed.

Lemma wrong_argument_count_witness :
  run_script {| argv0 := sample_prog; argv_args := [] |}
             (one_file sample_path (b64encode sample_key))
  = {| out := [];
       err := lit "Usage: ./extract_privatekey.py <key_file_path>" ++ [10];
       exit_code := 1 |}
  /\ run_script {| argv0 := sample_prog;
                   argv_args := [sample_path; sample_path] |}
                (one_file sample_path (b64encode sample_key))
     = {| out := [];
          err := lit "Usage: ./extract_privatekey.py <key_file_path>" ++ [10];
          exit_code := 1 |}.
Proof.
  split.
  - apply (wrong_argument_count {| argv0 := sample_prog; argv_args := [] |}).
    vm_compute. lia.
  - apply (wrong_argument_count
             {| argv0 := sample_prog;
                argv_args := [sample_path; sample_path] |}).
    vm_compute. lia.
Defined.

(** C7.  When the path does not name an existing file, the run exits with
    status 1, writes the key-file-not-found line with the path to standard
    error and nothing to standard output. *)
Theorem missing_file_reported (prog path : pystr) (fs : filesystem) :
  fs path = ReadNotFound ->
  run_script (invoke prog path) fs
  = {| out := [];
       err := (lit "ERROR: Key file not found: " ++ path) ++ [10];
       exit_code := 1 |}.
Proof.
  intros Hf. exact (run_not_found prog path fs Hf).
Qed.

Lemma missing_file_reported_witness :
  run_script (invoke sample_prog (lit "absent.key"))
             (one_file sample_path (b64encode sample_key))
  = {| out := [];
       err := lit "ERROR: Key file not found: absent.key" ++ [10];
       exit_code := 1 |}.
Proof.
  apply (missing_file_reported sample_prog (lit "absent.key")
           (one_file sample_path (b64encode sample_key))).
  vm_compute. reflexivity.
Defined.

(** C8.  For every text [s] that decodes successfully and every leading
    and trailing whitespace [w1], [w2], the run on a file holding
    [w1 + s + w2] has the outcome of the run on a file holding [s], and the
    stripped content of the first file decodes to what [s] decodes to: the
    surrounding whitespace causes no decoding failure. *)
Theorem surrounding_whitespace_ignored
  (prog path s w1 w2 : pystr) (fs1 fs2 : filesystem) (data : bytes) :
  b64decode s = inr data ->
  all_space w1 -> all_space w2 ->
  fs1 path = ReadText (w1 ++ s ++ w2) ->
  fs2 path = ReadText s ->
  run_script (invoke prog path) fs1 = run_script (invoke prog path) fs2
  /\ b64decode (strip (w1 ++ s ++ w2)) = inr data.
Proof.
  intros Hd H1 H2 Hf1 Hf2.
  assert (Hs : b64decode (strip s) = inr data).
  { rewrite b64decode_strip; [exact Hd|]. eapply b64decode_ok_ascii, Hd. }
  assert (Hw : b64decode (strip (w1 ++ s ++ w2)) = inr data)
    by (rewrite strip_surrounded; assumption).
  split; [|exact Hw].
  destruct (Nat.lt_ge_cases (len data) 33) as [Hl | Hl].
  - rewrite (run_too_short _ _ _ _ _ Hf1 Hw Hl).
    rewrite (run_too_short _ _ _ _ _ Hf2 Hs Hl). reflexivity.
  - rewrite (run_success _ _ _ _ _ Hf1 Hw Hl).
    rewrite (run_success _ _ _ _ _ Hf2 Hs Hl). reflexivity.
Qed.

Lemma surrounding_whitespace_ignored_witness :
  run_script (invoke sample_prog sample_path)
    (one_file sample_path ([10; 32] ++ b64encode sample_key ++ [32; 10; 10]))
  = run_script (invoke sample_prog sample_path)
      (one_file sample_path (b64encode sample_key))
  /\ b64decode (strip ([10; 32] ++ b64encode sample_key ++ [32; 10; 10]))
     = inr sample_key.
Proof.
  apply (surrounding_whitespace_ignored sample_prog sample_path
           (b64encode sample_key) [10; 32] [32; 10; 10]
           (one_file sample_path
              ([10; 32] ++ b64encode sample_key ++ [32; 10; 10]))
           (one_file sample_path (b64encode sample_key))
           sample_key).
  - vm_compute. reflexivity.
  - repeat constructor.
  - repeat constructor.
  - vm_compute. reflexivity.
  - vm_compute. reflexivity.
Defined.

(** C9.  Two files whose decoded contents both have at least 33 bytes and
    agree at the offsets 1 to 32 give the same standard output, the same
    standard error and the same exit status, whatever the flag byte at
    offset 0 and the bytes from offset 33 on are. *)
Theorem output_depends_on_key_only
  (prog1 path1 text1 prog2 path2 text2 : pystr) (fs1 fs2 : filesystem)
  (data1 data2 : bytes) :
  fs1 path1 = ReadText text1 ->
  fs2 path2 = ReadText text2 ->
  b64decode (strip text1) = inr data1 ->
  b64decode (strip text2) = inr data2 ->
  (33 <= len data1)%nat ->
  (33 <= len data2)%nat ->
  (forall i, (1 <= i <= 32)%nat -> nth_error data1 i = nth_error data2 i) ->
  out (run_script (invoke prog1 path1) fs1)
  = out (run_script (invoke prog2 path2) fs2)
  /\ err (run_script (invoke prog1 path1) fs1)
     = err (run_script (invoke prog2 path2) fs2)
  /\ exit_code (run_script (invoke prog1 path1) fs1)
     = exit_code (run_script (invoke prog2 path2) fs2).
Proof.
  intros Hf1 Hf2 Hd1 Hd2 Hl1 Hl2 Hagree.
  rewrite (run_success _ _ _ _ _ Hf1 Hd1 Hl1).
  rewrite (run_success _ _ _ _ _ Hf2 Hd2 Hl2).
  cbn [out err exit_code].
  rewrite (slice_key_ext data1 data2 Hagree). repeat split.
Qed.

Lemma output_depends_on_key_only_witness :
  out (run_script (invoke sample_prog sample_path)
         (one_file sample_path (b64encode sample_key)))
  = out (run_script (invoke sample_prog (lit "other.key"))
           (one_file (lit "other.key") (b64encode sample_key_long)))
  /\ err (run_script (invoke sample_prog sample_path)
            (one_file sample_path (b64encode sample_key)))
     = err (run_script (invoke sample_prog (lit "other.key"))
              (one_file (lit "other.key") (b64encode sample_key_long)))
  /\ exit_code (run_script (invoke sample_prog sample_path)
                  (one_file sample_path (b64encode sample_key)))
     = exit_code (run_script (invoke sample_prog (lit "other.key"))
                    (one_file (lit "other.key") (b64encode sample_key_long))).
Proof.
  apply (output_depends_on_key_only
           sample_prog sample_path (b64encode sample_key)
           sample_prog (lit "other.key") (b64encode sample_key_long)
           (one_file sample_path (b64encode sample_key))
           (one_file (lit "other.key") (b64encode sample_key_long))
           sample_key sample_key_long).
  - vm_compute. reflexivity.
  - vm_compute. reflexivity.
  - vm_compute. reflexivity.
  - vm_compute. reflexivity.
  - vm_compute. lia.
  - vm_compute. lia.
  - intros i Hi.
    do 33 (destruct i as [|i]; [first [lia | reflexivity]|]). lia.
Defined.

(** C10.  When the file exists and is empty or holds only whitespace, the
    run ends through the length diagnostic, which reports 0 bytes against
    the minimum of 33, not through a decoding failure; the exit status is 1
    and standard output is empty. *)
Theorem blank_file_is_too_short (prog path text : pystr) (fs : filesystem) :
  fs path = ReadText text ->
  all_space text ->
  b64decode (strip text) = inr []
  /\ run_script (invoke prog path) fs
     = {| out := [];
          err := lit "ERROR: Decoded data too short: 0 bytes (expected at least 33)"
                 ++ [10];
          exit_code := 1 |}.
Proof.
  intros Hf Hw.
  assert (Hd : b64decode (strip text) = inr [])
    by (rewrite strip_all_space by exact Hw; apply b64decode_nil).
  split; [exact Hd|].
  rewrite (run_too_short prog path text fs [] Hf Hd); [reflexivity|].
  cbn. lia.
Qed.

Lemma blank_file_is_too_short_witness :
  (b64decode (strip []) = inr []
   /\ run_script (invoke sample_prog sample_path) (one_file sample_path [])
      = {| out := [];
           err := lit "ERROR: Decoded data too short: 0 bytes (expected at least 33)"
                  ++ [10];
           exit_code := 1 |})
  /\ (b64decode (strip [32; 10; 9; 13; 10]) = inr []
      /\ run_script (invoke sample_prog sample_path)
                    (one_file sample_path [32; 10; 9; 13; 10])
         = {| out := [];
              err := lit "ERROR: Decoded data too short: 0 bytes (expected at least 33)"
                     ++ [10];
              exit_code := 1 |}).
Proof.
  split.
  - apply (blank_file_is_too_short sample_prog sample_path []
             (one_file sample_path [])).
    + vm_compute. reflexivity.
    + constructor.
  - apply (blank_file_is_too_short sample_prog sample_path [32; 10; 9; 13; 10]
             (one_file sample_path [32; 10; 9; 13; 10])).
    + vm_compute. reflexivity.
    + repeat constructor.
Defined.

(** * Further properties of the program *)

(** ** Alphabet characters, whitespace and the decoder *)

Lemma in_alphabet_ascii (c : N) : in_alphabet c = true -> c < 128.
Proof.
  unfold in_alphabet, table_a2b_base64. intros H.
  destruct (N.lt_ge_cases c 128) as [Hc | Hc]; [exact Hc | exfalso].
  replace (c <=? 90) with false in H by (symmetry; apply N.leb_gt; lia).
  replace (c <=? 122) with false in H by (symmetry; apply N.leb_gt; lia).
  replace (c <=? 57) with false in H by (symmetry; apply N.leb_gt; lia).
  replace (c =? 43) with false in H by (symmetry; apply N.eqb_neq; lia).
  replace (c =? 47) with false in H by (symmetry; apply N.eqb_neq; lia).
  rewrite !andb_false_r in H. discriminate.
Qed.

Lemma isspace_not_alphabet (c : N) : isspace c = true -> in_alphabet c = false.
Proof.
  intros Hs. destruct (in_alphabet c) eqn:E; [|reflexivity].
  pose proof (all_below_spec 128 space_alphabet_check eq_refl c
                (in_alphabet_ascii c E)) as H.
  unfold space_alphabet_check in H. rewrite Hs, E in H. discriminate.
Qed.

Lemma data_chars_app (a b : pystr) :
  data_chars (a ++ b) = (data_chars a + data_chars b)%nat.
Proof. unfold data_chars, len. now rewrite filter_app, length_app. Qed.

Lemma data_chars_all_space (w : pystr) : all_space w -> data_chars w = 0%nat.
Proof.
  induction 1 as [|c w Hc _ IH]; [reflexivity|].
  unfold data_chars, len in *. cbn [filter].
  now rewrite (isspace_not_alphabet c Hc).
Qed.

Lemma data_chars_strip (s : pystr) : data_chars (strip s) = data_chars s.
Proof.
  destruct (strip_decomp s) as (w1 & w2 & H1 & H2 & E).
  rewrite E at 2. rewrite !data_chars_app.
  rewrite (data_chars_all_space w1 H1), (data_chars_all_space w2 H2). lia.
Qed.

Lemma data_chars_cons (c : N) (s : pystr) :
  data_chars (c :: s)
  = if in_alphabet c then S (data_chars s) else data_chars s.
Proof.
  unfold data_chars, len. cbn [filter]. now destruct (in_alphabet c).
Qed.

Lemma table_test_alphabet (c : N) :
  (64 <=? table_a2b_base64 c) = negb (in_alphabet c).
Proof.
  unfold in_alphabet.
  destruct (N.leb_spec 64 (table_a2b_base64 c));
    destruct (N.ltb_spec (table_a2b_base64 c) 64); try reflexivity; lia.
Qed.

(** The decoder sees only the significant characters of its input. *)
Lemma a2b_loop_significant (s : list N) :
  forall quad_pos leftchar pads,
    a2b_loop (filter significant s) quad_pos leftchar pads
    = a2b_loop s quad_pos leftchar pads.
Proof.
  induction s as [|c s IH]; intros q lc p; [reflexivity|].
  cbn [filter]. destruct (significant c) eqn:E.
  - cbn [a2b_loop]. rewrite !IH. reflexivity.
  - unfold significant in E. apply orb_false_iff in E as [E1 E2].
    rewrite IH. cbn [a2b_loop]. rewrite E2, table_test_alphabet, E1.
    reflexivity.
Qed.

Lemma encode_ascii_ok (s : pystr) : ascii_str s -> encode_ascii s = Some s.
Proof.
  intros Hs. unfold encode_ascii.
  replace (forallb (fun c => c <? 128) s) with true; [reflexivity|].
  symmetry. apply forallb_forall. intros c Hc. apply N.ltb_lt.
  unfold ascii_str in Hs. rewrite Forall_forall in Hs. auto.
Qed.

Lemma ascii_str_filter (f : N -> bool) (s : pystr) :
  ascii_str s -> ascii_str (filter f s).
Proof.
  unfold ascii_str. rewrite !Forall_forall. intros H c Hc.
  apply filter_In in Hc as [Hc _]. auto.
Qed.

Lemma b64decode_significant (s : pystr) :
  ascii_str s -> b64decode (filter significant s) = b64decode s.
Proof.
  intros Hs. unfold b64decode.
  rewrite (encode_ascii_ok s Hs).
  rewrite (encode_ascii_ok _ (ascii_str_filter significant s Hs)).
  unfold a2b_base64. rewrite a2b_loop_significant. reflexivity.
Qed.

Lemma ascii_str_forallb (s : pystr) :
  forallb (fun c => c <? 128) s = true -> ascii_str s.
Proof.
  intros H. apply Forall_forall. intros c Hc.
  rewrite forallb_forall in H. apply N.ltb_lt. auto.
Qed.

Lemma strip_parts (P : N -> Prop) (s : pystr) :
  Forall P s -> Forall P (strip s).
Proof.
  intros H. destruct (strip_decomp s) as (w1 & w2 & _ & _ & E).
  rewrite E in H. apply Forall_app in H as [_ H].
  now apply Forall_app in H as [H _].
Qed.

(** ** How many bytes the decoder writes *)

Lemma slack_cases (q : N) :
  q < 4 -> q = 0 \/ q = 1 \/ q = 2 \/ q = 3.
Proof. lia. Qed.

(** In general: never more than three bytes for four alphabet characters. *)
Lemma a2b_loop_length_bound (s : list N) :
  forall quad_pos leftchar pads,
    quad_pos < 4 ->
    (4 * len (fst (a2b_loop s quad_pos leftchar pads))
     <= 3 * data_chars s + slack quad_pos)%nat.
Proof.
  induction s as [|c s IH]; intros q lc p Hq.
  - cbn. lia.
  - cbn [a2b_loop]. rewrite data_chars_cons, table_test_alphabet.
    destruct (c =? BASE64_PAD) eqn:Ep.
    + apply N.eqb_eq in Ep. subst c. change (in_alphabet BASE64_PAD) with false.
      destruct (2 <=? q).
      * destruct (4 <=? q + (p + 1)); [cbn; lia | now apply IH].
      * now apply IH.
    + destruct (in_alphabet c); cbn [negb].
      * destruct (slack_cases q Hq) as [-> | [-> | [-> | ->]]];
          unfold emit, len in *; cbn [fst List.length slack];
          match goal with
          | |- context [a2b_loop s ?q' ?l' ?p'] =>
              pose proof (IH q' l' p' ltac:(lia)) as B
          end; cbn [slack] in B; lia.
      * now apply IH.
Qed.

Lemma b64decode_length_bound (s : pystr) (data : bytes) :
  b64decode s = inr data -> (4 * len data <= 3 * data_chars s)%nat.
Proof.
  unfold b64decode. destruct (encode_ascii s) as [b|] eqn:Ea; [|discriminate].
  assert (b = s) as ->.
  { unfold encode_ascii in Ea. destruct (forallb _ s); congruence. }
  unfold a2b_base64.
  pose proof (a2b_loop_length_bound s 0 0 0 ltac:(lia)) as B.
  destruct (a2b_loop s 0 0 0) as [bin [q|]]; cbn [fst slack] in B.
  - destruct (q =? 0); [intros [= <-]; lia|].
    destruct (q =? 1); discriminate.
  - intros [= <-]. lia.
Qed.

(** On text without [=]: exactly three bytes for four alphabet characters,
    up to the group left open at the end. *)
Lemma a2b_loop_no_pad_length (s : list N) :
  Forall (fun c => c <> BASE64_PAD) s ->
  forall quad_pos leftchar pads,
    quad_pos < 4 ->
    exists q',
      snd (a2b_loop s quad_pos leftchar pads) = LoopEnd q'
      /\ q' < 4
      /\ (4 * len (fst (a2b_loop s quad_pos leftchar pads)) + slack q'
          = 3 * data_chars s + slack quad_pos)%nat.
Proof.
  induction 1 as [|c s Hc _ IH]; intros q lc p Hq.
  - exists q. cbn. auto.
  - cbn [a2b_loop]. apply N.eqb_neq in Hc. rewrite Hc.
    rewrite data_chars_cons, table_test_alphabet.
    destruct (in_alphabet c); cbn [negb]; [|now apply IH].
    destruct (slack_cases q Hq) as [-> | [-> | [-> | ->]]];
      unfold emit, len in *; cbn [fst snd List.length slack];
      match goal with
      | |- context [a2b_loop s ?q' ?l' ?p'] =>
          destruct (IH q' l' p' ltac:(lia)) as (q1 & E1 & L1 & B)
      end; exists q1; cbn [slack] in B;
      (split; [exact E1 | split; [exact L1 | lia]]).
Qed.

(** The result of decoding ASCII text without [=], by the number of its
    alphabet characters modulo 4. *)
Lemma b64decode_no_pad_result (s : pystr) :
  ascii_str s -> Forall (fun c => c <> BASE64_PAD) s ->
  match (data_chars s mod 4)%nat with
  | 0%nat => exists data,
      b64decode s = inr data /\ (4 * len data = 3 * data_chars s)%nat
  | 1%nat =>
      b64decode s
      = inl (BinasciiError
               (lit "Invalid base64-encoded string: number of data characters ("
                ++ str_of_nat (data_chars s)
                ++ lit ") cannot be 1 more than a multiple of 4"))
  | _ => b64decode s = inl (BinasciiError (lit "Incorrect padding"))
  end.
Proof.
  intros Ha Hp. unfold b64decode. rewrite (encode_ascii_ok s Ha).
  unfold a2b_base64.
  pose proof (a2b_loop_no_pad s Hp 0 0 0 ltac:(lia)) as Hq.
  destruct (a2b_loop_no_pad_length s Hp 0 0 0 ltac:(lia)) as (q' & E & _ & B).
  rewrite E in Hq. injection Hq as ->.
  destruct (a2b_loop s 0 0 0) as [bin e]. cbn [fst snd] in *. subst e.
  cbn [slack] in B.
  pose proof (Nat.mod_upper_bound (data_chars s) 4 ltac:(lia)) as Hm.
  pose proof (Nat.div_mod_eq (data_chars s) 4) as Hdm.
  assert (Hn : N.of_nat (data_chars s) mod 4 = N.of_nat (data_chars s mod 4)).
  { symmetry. apply N.mod_unique with (q := N.of_nat (data_chars s / 4)); lia. }
  rewrite Hn in *.
  destruct (data_chars s mod 4)%nat as [|[|[|[|k]]]] eqn:Em; try lia.
  - exists bin. cbn [N.of_nat N.eqb slack] in *. split; [reflexivity | lia].
  - change (slack (N.of_nat 1)) with 3%nat in B.
    change (N.of_nat 1 =? 0) with false. change (N.of_nat 1 =? 1) with true.
    cbv iota.
    assert (El : (len bin = data_chars s / 4 * 3)%nat) by lia.
    rewrite El, Nat.div_mul by discriminate.
    replace (data_chars s / 4 * 4 + 1)%nat with (data_chars s) by lia.
    reflexivity.
  - reflexivity.
  - reflexivity.
Qed.

(** ** Hexadecimal text determines the bytes *)

Lemma hex_cons (x : N) (b : bytes) :
  hex (x :: b) = hexdigit (N.shiftr x 4) :: hexdigit (N.land x 15) :: hex b.
Proof. reflexivity. Qed.

Lemma hex_inj_check_all (x y : N) :
  x < 256 -> y < 256 -> hex_inj_check x y = true.
Proof.
  apply (all_below2_spec 256 hex_inj_check). vm_compute. reflexivity.
Qed.

Lemma hex_inj (a : bytes) :
  is_bytes a -> forall b, is_bytes b -> hex a = hex b -> a = b.
Proof.
  induction 1 as [|x a Hx _ IH]; intros [|y b] Hb E.
  - reflexivity.
  - rewrite hex_cons in E. discriminate.
  - rewrite hex_cons in E. discriminate.
  - inversion_clear Hb as [|? ? Hy Hb'].
    rewrite !hex_cons in E.
    assert (E1 : hexdigit (N.shiftr x 4) = hexdigit (N.shiftr y 4))
      by congruence.
    assert (E2 : hexdigit (N.land x 15) = hexdigit (N.land y 15))
      by congruence.
    assert (E3 : hex a = hex b) by congruence.
    pose proof (hex_inj_check_all x y Hx Hy) as H.
    unfold hex_inj_check in H. rewrite E1, E2, !N.eqb_refl in H.
    cbn [andb implb] in H. apply N.eqb_eq in H. subst y.
    f_equal. now apply IH.
Qed.

(** ** Runs on files that decode alike *)

Lemma run_same_decode
  (prog path text1 text2 : pystr) (fs1 fs2 : filesystem) :
  fs1 path = ReadText text1 ->
  fs2 path = ReadText text2 ->
  b64decode (strip text1) = b64decode (strip text2) ->
  run_script (invoke prog path) fs1 = run_script (invoke prog path) fs2.
Proof.
  intros Hf1 Hf2 E.
  destruct (b64decode (strip text2)) as [e|data] eqn:Hd.
  - rewrite (run_decode_fails _ _ _ _ _ Hf1 E).
    rewrite (run_decode_fails _ _ _ _ _ Hf2 Hd). reflexivity.
  - destruct (Nat.lt_ge_cases (len data) 33) as [Hl | Hl].
    + rewrite (run_too_short _ _ _ _ _ Hf1 E Hl).
      rewrite (run_too_short _ _ _ _ _ Hf2 Hd Hl). reflexivity.
    + rewrite (run_success _ _ _ _ _ Hf1 E Hl).
      rewrite (run_success _ _ _ _ _ Hf2 Hd Hl). reflexivity.
Qed.

Lemma b64decode_strip_significant (text : pystr) :
  ascii_str text ->
  b64decode (strip text) = b64decode (filter significant text).
Proof.
  intros Ha. rewrite b64decode_strip by exact Ha.
  symmetry. now apply b64decode_significant.
Qed.

Lemma filter_significant_wrap_lines (width : nat) (s : pystr) :
  forall col,
    filter significant (wrap_lines width col s) = filter significant s.
Proof.
  induction s as [|c s IH]; intros col; [reflexivity|].
  cbn [wrap_lines]. destruct col as [|k].
  - change (filter significant (10 :: c :: wrap_lines width (width - 1) s))
      with (filter significant (c :: wrap_lines width (width - 1) s)).
    cbn [filter]. now rewrite IH.
  - cbn [filter]. now rewrite IH.
Qed.

Lemma ascii_str_wrap_lines (width : nat) (s : pystr) :
  ascii_str s -> forall col, ascii_str (wrap_lines width col s).
Proof.
  assert (H10 : 10 < 128) by reflexivity.
  induction 1 as [|c s Hc _ IH]; intros col; cbn [wrap_lines].
  - repeat constructor.
  - destruct col; repeat (constructor; try assumption); apply IH.
Qed.

Lemma b64encode_ascii (b : bytes) : is_bytes b -> ascii_str (b64encode b).
Proof.
  intros Hb. eapply Forall_impl; [|apply b64encode_chars; exact Hb].
  intros c [H _]. now apply N.ltb_lt.
Qed.

(** ** The function [extract_private_key] and the whole script *)

(** X1.  Called with any path, on any file system and after whatever has
    been written so far, [extract_private_key] either returns normally,
    having appended the key line to standard output and nothing to standard
    error, or raises [SystemExit(1)], having appended one diagnostic line to
    standard error and nothing to standard output.  No other exception
    leaves it. *)
Theorem extract_private_key_exits
  (fs : filesystem) (key_file_path : pystr) (w : streams) :
  (exists data,
      is_bytes data /\ (33 <= len data)%nat
      /\ extract_private_key fs key_file_path w
         = ({| stdout := stdout w ++ hex (slice 1 33 data) ++ [10];
               stderr := stderr w |}, inr tt))
  \/ (exists msg,
         extract_private_key fs key_file_path w
         = ({| stdout := stdout w; stderr := stderr w ++ msg ++ [10] |},
            inl (SystemExit 1))).
Proof.
  unfold extract_private_key, try_except, bind, open_read, lift, ret, raise,
    sys_exit, print, print_stderr.
  destruct (fs key_file_path) as [text| |msg].
  - destruct (b64decode (strip text)) as [e|data] eqn:Hd.
    + right.
      destruct (b64decode_exn _ _ Hd) as [[m ->] | [m ->]];
        eexists; reflexivity.
    + destruct (len data <? 33)%nat eqn:Hl.
      * right. eexists. reflexivity.
      * left. exists data. apply Nat.ltb_ge in Hl.
        split; [eapply b64decode_bytes, Hd | split; [exact Hl | reflexivity]].
  - right. eexists. reflexivity.
  - right. eexists. reflexivity.
Qed.

(** X2.  The script exits with status 0 exactly when it is given one
    argument, the file can be read, its stripped content decodes, and the
    decoded payload has at least 33 bytes. *)
Theorem success_iff (a : argv) (fs : filesystem) :
  exit_code (run_script a fs) = 0%Z
  <-> exists path text data,
        argv_args a = [path]
        /\ fs path = ReadText text
        /\ b64decode (strip text) = inr data
        /\ (33 <= len data)%nat.
Proof.
  split.
  - intros H0.
    destruct (Nat.eq_dec (len (argv_args a)) 1) as [Ha | Ha].
    2:{ rewrite (run_usage _ _ Ha) in H0. discriminate. }
    destruct (argv_invoke a Ha) as [path Ea]. rewrite Ea in H0.
    destruct (fs path) as [text| |msg] eqn:Hf.
    + destruct (b64decode (strip text)) as [e|data] eqn:Hd.
      * rewrite (run_decode_fails _ _ _ _ _ Hf Hd) in H0. discriminate.
      * destruct (Nat.lt_ge_cases (len data) 33) as [Hl | Hl].
        -- rewrite (run_too_short _ _ _ _ _ Hf Hd Hl) in H0. discriminate.
        -- exists path, text, data. rewrite Ea. auto.
    + rewrite (run_not_found _ _ _ Hf) in H0. discriminate.
    + rewrite (run_read_fails _ _ _ _ Hf) in H0. discriminate.
  - intros (path & text & data & Ea & Hf & Hd & Hl).
    assert (E : a = invoke (argv0 a) path)
      by (destruct a; cbn in *; subst; reflexivity).
    rewrite E, (run_success _ _ _ _ _ Hf Hd Hl). reflexivity.
Qed.

Lemma success_iff_witness :
  exit_code (run_script (invoke sample_prog sample_path)
               (one_file sample_path (b64encode sample_key))) = 0%Z.
Proof.
  apply (proj2 (success_iff (invoke sample_prog sample_path)
                  (one_file sample_path (b64encode sample_key)))).
  exists sample_path, (b64encode sample_key), sample_key.
  repeat split; vm_compute; first [reflexivity | lia].
Defined.

(** X3.  When opening or reading the file fails with an exception other
    than [FileNotFoundError] (permission denied, a directory, undecodable
    bytes), the generic handler reports that exception's message after
    [ERROR: ]; standard output stays empty and the status is 1. *)
Theorem read_failure_reported (prog path msg : pystr) (fs : filesystem) :
  fs path = ReadFails msg ->
  run_script (invoke prog path) fs
  = {| out := []; err := (lit "ERROR: " ++ msg) ++ [10]; exit_code := 1 |}.
Proof.
  intros Hf. exact (run_read_fails prog path msg fs Hf).
Qed.

Lemma read_failure_reported_witness :
  run_script (invoke sample_prog sample_path)
    (fun _ => ReadFails (lit "[Errno 13] Permission denied: 'starcoin_client.key'"))
  = {| out := [];
       err := lit "ERROR: [Errno 13] Permission denied: 'starcoin_client.key'"
              ++ [10];
       exit_code := 1 |}.
Proof.
  apply (read_failure_reported sample_prog sample_path
           (lit "[Errno 13] Permission denied: 'starcoin_client.key'")
           (fun _ => ReadFails
                       (lit "[Errno 13] Permission denied: 'starcoin_client.key'"))).
  reflexivity.
Defined.

(** X4.  A character outside ASCII that stripping leaves in the content
    (a byte order mark before the key, say) makes the run fail with the
    decoder's message about ASCII characters, whatever else the file
    holds. *)
Theorem non_ascii_rejected
  (prog path text : pystr) (fs : filesystem) (c : N) :
  fs path = ReadText text ->
  In c (strip text) ->
  128 <= c ->
  run_script (invoke prog path) fs
  = {| out := [];
       err := lit "ERROR: string argument should contain only ASCII characters"
              ++ [10];
       exit_code := 1 |}.
Proof.
  intros Hf Hin Hc.
  rewrite (run_decode_fails prog path text fs _ Hf
             (b64decode_non_ascii (strip text) c Hin Hc)).
  reflexivity.
Qed.

Lemma non_ascii_rejected_witness :
  run_script (invoke sample_prog sample_path)
             (one_file sample_path (65279 :: b64encode sample_key))
  = {| out := [];
       err := lit "ERROR: string argument should contain only ASCII characters"
              ++ [10];
       exit_code := 1 |}.
Proof.
  apply (non_ascii_rejected sample_prog sample_path
           (65279 :: b64encode sample_key)
           (one_file sample_path (65279 :: b64encode sample_key)) 65279).
  - vm_compute. reflexivity.
  - vm_compute. left. reflexivity.
  - vm_compute. discriminate.
Defined.

(** ** What the lenient decoder makes of a key file *)

(** X5.  Two ASCII files that hold the same alphabet characters and [=]
    in the same order give the same run: every other character (line
    breaks, blanks, punctuation), wherever it stands, changes nothing. *)
Theorem ignorable_characters_irrelevant
  (prog path text1 text2 : pystr) (fs1 fs2 : filesystem) :
  ascii_str text1 ->
  ascii_str text2 ->
  filter significant text1 = filter significant text2 ->
  fs1 path = ReadText text1 ->
  fs2 path = ReadText text2 ->
  run_script (invoke prog path) fs1 = run_script (invoke prog path) fs2.
Proof.
  intros A1 A2 E Hf1 Hf2.
  apply (run_same_decode prog path text1 text2 fs1 fs2 Hf1 Hf2).
  rewrite !b64decode_strip_significant by assumption.
  now rewrite E.
Qed.

Lemma ignorable_characters_irrelevant_witness :
  run_script (invoke sample_prog sample_path)
    (one_file sample_path (lit "AAECAwQFBgcICQoLDA0O" ++ [10; 9]
              ++ lit "DxAREhMUFRYXGBkaGxwd Hh8g!"))
  = run_script (invoke sample_prog sample_path)
      (one_file sample_path (b64encode sample_key)).
Proof.
  apply (ignorable_characters_irrelevant sample_prog sample_path
           (lit "AAECAwQFBgcICQoLDA0O" ++ [10; 9]
              ++ lit "DxAREhMUFRYXGBkaGxwd Hh8g!")
           (b64encode sample_key)).
  - apply ascii_str_forallb. vm_compute. reflexivity.
  - apply ascii_str_forallb. vm_compute. reflexivity.
  - vm_compute. reflexivity.
  - vm_compute. reflexivity.
  - vm_compute. reflexivity.
Defined.

(** X6.  A key file whose base64 text is broken into lines of any width,
    as [base64 -w] writes it, gives the key of the payload just as the
    unbroken text does. *)
Theorem wrapped_key_file_accepted
  (prog path : pystr) (fs : filesystem) (width : nat) (B : bytes) :
  is_bytes B ->
  (33 <= len B)%nat ->
  fs path = ReadText (wrapped width (b64encode B)) ->
  run_script (invoke prog path) fs
  = {| out := hex (slice 1 33 B) ++ [10]; err := []; exit_code := 0 |}.
Proof.
  intros HB Hl Hf.
  apply (run_success prog path _ fs B Hf); [|exact Hl].
  unfold wrapped.
  rewrite b64decode_strip_significant
    by (apply ascii_str_wrap_lines, b64encode_ascii, HB).
  rewrite filter_significant_wrap_lines.
  rewrite b64decode_significant by (apply b64encode_ascii, HB).
  now apply b64decode_b64encode.
Qed.

Lemma wrapped_key_file_accepted_witness :
  run_script (invoke sample_prog sample_path)
             (one_file sample_path (wrapped 16 (b64encode sample_key)))
  = {| out := lit "0102030405060708090a0b0c0d0e0f101112131415161718191a1b1c1d1e1f20"
              ++ [10];
       err := [];
       exit_code := 0 |}.
Proof.
  apply (wrapped_key_file_accepted sample_prog sample_path
           (one_file sample_path (wrapped 16 (b64encode sample_key)))
           16 sample_key).
  - apply is_bytes_forallb. vm_compute. reflexivity.
  - vm_compute. lia.
  - vm_compute. reflexivity.
Defined.

(** X7.  A file with fewer than 44 alphabet characters never yields a key:
    whatever else it holds, the run exits with status 1 and an empty
    standard output. *)
Theorem too_few_characters_rejected
  (prog path text : pystr) (fs : filesystem) :
  fs path = ReadText text ->
  (data_chars text < 44)%nat ->
  exit_code (run_script (invoke prog path) fs) = 1%Z
  /\ out (run_script (invoke prog path) fs) = [].
Proof.
  intros Hf Hn.
  destruct (b64decode (strip text)) as [e|data] eqn:Hd.
  - rewrite (run_decode_fails _ _ _ _ _ Hf Hd). split; reflexivity.
  - pose proof (b64decode_length_bound _ _ Hd) as B.
    rewrite data_chars_strip in B.
    rewrite (run_too_short _ _ _ _ _ Hf Hd ltac:(lia)). split; reflexivity.
Qed.

Lemma too_few_characters_rejected_witness :
  exit_code (run_script (invoke sample_prog sample_path)
               (one_file sample_path
                  (lit "AAECAwQFBgcICQoLDA0ODxAREhMUFRYXGBkaGxwdHh8====="))) = 1%Z
  /\ out (run_script (invoke sample_prog sample_path)
            (one_file sample_path
               (lit "AAECAwQFBgcICQoLDA0ODxAREhMUFRYXGBkaGxwdHh8====="))) = [].
Proof.
  apply (too_few_characters_rejected sample_prog sample_path
           (lit "AAECAwQFBgcICQoLDA0ODxAREhMUFRYXGBkaGxwdHh8=====")).
  - vm_compute. reflexivity.
  - vm_compute. lia.
Defined.

(** X8.  For an ASCII file without [=] whose number of alphabet characters
    is not a multiple of 4, the run fails with the decoder's message: when
    the number is 1 more than a multiple of 4 the message names that very
    number, otherwise it is [Incorrect padding]. *)
Theorem unpadded_text_rejected
  (prog path text : pystr) (fs : filesystem) :
  fs path = ReadText text ->
  ascii_str text ->
  Forall (fun c => c <> BASE64_PAD) text ->
  (data_chars text mod 4 <> 0)%nat ->
  run_script (invoke prog path) fs
  = {| out := [];
       err := (lit "ERROR: "
               ++ (if (data_chars text mod 4 =? 1)%nat then
                     lit "Invalid base64-encoded string: number of data characters ("
                     ++ str_of_nat (data_chars text)
                     ++ lit ") cannot be 1 more than a multiple of 4"
                   else lit "Incorrect padding")) ++ [10];
       exit_code := 1 |}.
Proof.
  intros Hf Ha Hp Hm.
  pose proof (b64decode_no_pad_result (strip text)
                (strip_parts _ _ Ha) (strip_parts _ _ Hp)) as R.
  rewrite data_chars_strip in R.
  destruct (data_chars text mod 4)%nat as [|[|k]]; [contradiction| |];
    rewrite (run_decode_fails _ _ _ _ _ Hf R); reflexivity.
Qed.

Lemma unpadded_text_rejected_witness :
  run_script (invoke sample_prog sample_path)
             (one_file sample_path
                (lit "AAECAwQFBgcICQoLDA0ODxAREhMUFRYXGBkaGxwdHh8gIQ"))
  = {| out := []; err := lit "ERROR: Incorrect padding" ++ [10];
       exit_code := 1 |}.
Proof.
  apply (unpadded_text_rejected sample_prog sample_path
           (lit "AAECAwQFBgcICQoLDA0ODxAREhMUFRYXGBkaGxwdHh8gIQ")).
  - vm_compute. reflexivity.
  - apply ascii_str_forallb. vm_compute. reflexivity.
  - apply Forall_forall. intros c Hc E. subst c. vm_compute in Hc.
    repeat (destruct Hc as [Hc | Hc]; [discriminate|]). exact Hc.
  - vm_compute. discriminate.
Defined.

(** X9.  For an ASCII file without [=], the run succeeds exactly when the
    number of alphabet characters is a multiple of 4 and at least 44. *)
Theorem unpadded_text_success_iff
  (prog path text : pystr) (fs : filesystem) :
  fs path = ReadText text ->
  ascii_str text ->
  Forall (fun c => c <> BASE64_PAD) text ->
  (exit_code (run_script (invoke prog path) fs) = 0%Z
   <-> (data_chars text mod 4 = 0 /\ 44 <= data_chars text)%nat).
Proof.
  intros Hf Ha Hp.
  pose proof (b64decode_no_pad_result (strip text)
                (strip_parts _ _ Ha) (strip_parts _ _ Hp)) as R.
  rewrite data_chars_strip in R.
  destruct (data_chars text mod 4)%nat as [|[|k]].
  - destruct R as (data & Hd & Hlen).
    destruct (Nat.lt_ge_cases (len data) 33) as [Hl | Hl].
    + rewrite (run_too_short _ _ _ _ _ Hf Hd Hl). cbn [exit_code].
      split; [discriminate | lia].
    + rewrite (run_success _ _ _ _ _ Hf Hd Hl). cbn [exit_code].
      split; [lia | reflexivity].
  - rewrite (run_decode_fails _ _ _ _ _ Hf R). cbn [exit_code].
    split; [discriminate | lia].
  - rewrite (run_decode_fails _ _ _ _ _ Hf R). cbn [exit_code].
    split; [discriminate | lia].
Qed.

Lemma unpadded_text_success_iff_witness :
  exit_code (run_script (invoke sample_prog sample_path)
               (one_file sample_path (b64encode sample_key))) = 0%Z
  <-> (data_chars (b64encode sample_key) mod 4 = 0
       /\ 44 <= data_chars (b64encode sample_key))%nat.
Proof.
  apply (unpadded_text_success_iff sample_prog sample_path
           (b64encode sample_key)).
  - vm_compute. reflexivity.
  - apply ascii_str_forallb. vm_compute. reflexivity.
  - apply Forall_forall. intros c Hc E. subst c. vm_compute in Hc.
    repeat (destruct Hc as [Hc | Hc]; [discriminate|]). exact Hc.
Defined.

(** X10.  The printed line determines the key: two successful runs with
    the same standard output read payloads that agree at every offset
    from 1 to 32. *)
Theorem equal_output_equal_key
  (prog1 path1 text1 prog2 path2 text2 : pystr) (fs1 fs2 : filesystem)
  (data1 data2 : bytes) :
  fs1 path1 = ReadText text1 ->
  fs2 path2 = ReadText text2 ->
  b64decode (strip text1) = inr data1 ->
  b64decode (strip text2) = inr data2 ->
  (33 <= len data1)%nat ->
  (33 <= len data2)%nat ->
  out (run_script (invoke prog1 path1) fs1)
  = out (run_script (invoke prog2 path2) fs2) ->
  forall i, (1 <= i <= 32)%nat -> nth_error data1 i = nth_error data2 i.
Proof.
  intros Hf1 Hf2 Hd1 Hd2 Hl1 Hl2 Ho i Hi.
  rewrite (run_success _ _ _ _ _ Hf1 Hd1 Hl1) in Ho.
  rewrite (run_success _ _ _ _ _ Hf2 Hd2 Hl2) in Ho.
  cbn [out] in Ho. apply app_inv_tail in Ho.
  apply hex_inj in Ho;
    try (apply Forall_slice; eapply b64decode_bytes; eassumption).
  destruct i as [|j]; [lia|].
  pose proof (nth_error_slice_key data1 j) as N1.
  pose proof (nth_error_slice_key data2 j) as N2.
  replace (j <? 32)%nat with true in * by (symmetry; apply Nat.ltb_lt; lia).
  rewrite <- N1, <- N2, Ho. reflexivity.
Qed.

Lemma equal_output_equal_key_witness :
  nth_error sample_key 32 = nth_error sample_key_long 32.
Proof.
  apply (equal_output_equal_key
           sample_prog sample_path (b64encode sample_key)
           sample_prog (lit "other.key") (b64encode sample_key_long)
           (one_file sample_path (b64encode sample_key))
           (one_file (lit "other.key") (b64encode sample_key_long))
           sample_key sample_key_long).
  - vm_compute. reflexivity.
  - vm_compute. reflexivity.
  - vm_compute. reflexivity.
  - vm_compute. reflexivity.
  - vm_compute. lia.
  - vm_compute. lia.
  - vm_compute. reflexivity.
  - lia.
Defined.
